(** * gcGroupbyExtension: grouped pipelines over tables

    A shallow embedding of [gcGroupbyExtension/__init__.py], the accessor class
    [GroupByPipedTransforms] that pandas registers under the name [gc].

    What the class computes itself is embedded here function by function, under
    the names of the source.  What it delegates to Python and pandas is of two
    kinds:
    - small, well-understood primitives (equality, [type], [isinstance],
      truthiness, indexing with negative positions, int64 and float64
      arithmetic, [DataFrame.apply] along an axis, assignment of an axis) are
      written out below;
    - the capabilities the class only orchestrates (string formatting of a
      label, [pd.concat], [DataFrame.groupby], [to_dict], [isoformat],
      [json.dumps], writing a file) are the fields of the classes [Host],
      [Grouper] and [Exporter]: every theorem holds for every host. *)

From Stdlib Require Import ZArith List String Bool Lia DecimalString.
From Stdlib Require Import Floats.SpecFloat.
Import ListNotations.

Local Open Scope string_scope.
Local Open Scope list_scope.
Local Open Scope Z_scope.

(** ** Python values *)

(** The values that occur as labels, group keys, selectors and keyword
    arguments.  [PyInt] is Python's unbounded [int]; [NpInt64] is the numpy
    scalar an integer axis of pandas hands out; [Timestamp] and [Timedelta]
    carry their nanosecond count ([Timestamp]: since 1970-01-01).  Float
    labels and the missing time value [NaT] are left out. *)
Inductive PyVal : Type :=
| PyNone
| PyBool (b : bool)
| PyInt (z : Z)
| PyStr (s : string)
| NpInt64 (z : Z)
| Timestamp (ns : Z)
| Timedelta (ns : Z)
| PyTuple (a b : PyVal).

(** [type(v)]. *)
Inductive PyType : Type :=
| NoneType | t_bool | t_int | t_str | t_int64 | t_Timestamp | t_Timedelta | t_tuple.

Definition type (v : PyVal) : PyType :=
  match v with
  | PyNone => NoneType
  | PyBool _ => t_bool
  | PyInt _ => t_int
  | PyStr _ => t_str
  | NpInt64 _ => t_int64
  | Timestamp _ => t_Timestamp
  | Timedelta _ => t_Timedelta
  | PyTuple _ _ => t_tuple
  end.

Definition PyType_eqb (a b : PyType) : bool :=
  match a, b with
  | NoneType, NoneType | t_bool, t_bool | t_int, t_int | t_str, t_str
  | t_int64, t_int64 | t_Timestamp, t_Timestamp | t_Timedelta, t_Timedelta
  | t_tuple, t_tuple => true
  | _, _ => false
  end.

(** [isinstance(v, int)]: [bool] is a subclass of [int], [numpy.int64] is not. *)
Definition isinstance_int (v : PyVal) : bool :=
  match v with
  | PyBool _ | PyInt _ => true
  | _ => false
  end.

(** The integer a value compares as, for the three integer-like types. *)
Definition integer_value (v : PyVal) : option Z :=
  match v with
  | PyBool b => Some (Z.b2z b)
  | PyInt z | NpInt64 z => Some z
  | _ => None
  end.

(** [a == b].  Integer-like values compare by value across their types
    ([True == 1], [numpy.int64(3) == 3]); a time value never equals an
    integer. *)
Fixpoint py_eq (a b : PyVal) : bool :=
  match a, b with
  | PyNone, PyNone => true
  | PyStr s, PyStr t => String.eqb s t
  | Timestamp x, Timestamp y => x =? y
  | Timedelta x, Timedelta y => x =? y
  | PyTuple a1 a2, PyTuple b1 b2 => py_eq a1 b1 && py_eq a2 b2
  | _, _ =>
      match integer_value a, integer_value b with
      | Some x, Some y => x =? y
      | _, _ => false
      end
  end.

(** [bool(v)]. *)
Definition truthy (v : PyVal) : bool :=
  match v with
  | PyNone => false
  | PyBool b => b
  | PyInt z | NpInt64 z | Timedelta z => negb (z =? 0)
  | PyStr s => negb (String.eqb s EmptyString)
  | Timestamp _ | PyTuple _ _ => true
  end.

(** ** Exceptions and results *)

Inductive PyExn : Type :=
| TypeError (msg : string)
| ValueError (msg : string)
| IndexError (msg : string)
| KeyError (msg : string)
| OverflowError (msg : string)
| OSError (msg : string)
| Exception (msg : string).

Inductive result (A : Type) : Type :=
| Ok (a : A)
| Raise (e : PyExn).

Arguments Ok {A} a.
Arguments Raise {A} e.

Definition rbind {A B : Type} (r : result A) (k : A -> result B) : result B :=
  match r with
  | Ok a => k a
  | Raise e => Raise e
  end.

Declare Scope result_scope.
Delimit Scope result_scope with result.
Notation "x <- r ;; k" := (rbind r (fun x => k))
  (at level 61, r at next level, right associativity) : result_scope.

Fixpoint rmap {A B : Type} (f : A -> result B) (xs : list A) : result (list B) :=
  match xs with
  | [] => Ok []
  | x :: rest =>
      (y <- f x ;; ys <- rmap f rest ;; Ok (y :: ys))%result
  end.

(** ** Sequences *)

(** The position a Python index [i] denotes in a sequence of length [n]:
    negative indices count from the end. *)
Definition position (n : nat) (i : Z) : option nat :=
  let len := Z.of_nat n in
  if (0 <=? i) && (i <? len) then Some (Z.to_nat i)
  else if (i <? 0) && (- len <=? i) then Some (Z.to_nat (i + len))
  else None.

(** [xs[i]]. *)
Definition getitem {A : Type} (xs : list A) (i : Z) : result A :=
  match position (List.length xs) i with
  | Some k =>
      match nth_error xs k with
      | Some x => Ok x
      | None => Raise (IndexError "index out of range")
      end
  | None => Raise (IndexError "index out of range")
  end.

(** [x.iloc[pos]] for a scalar [pos]: pandas accepts an integer and refuses a
    [bool] (and every other type) as a position. *)
Definition iloc {A : Type} (xs : list A) (pos : PyVal) : result A :=
  match pos with
  | PyInt z =>
      match getitem xs z with
      | Ok x => Ok x
      | Raise _ => Raise (IndexError "single positional indexer is out-of-bounds")
      end
  | _ => Raise (TypeError "Cannot index by location index with a non-integer key")
  end.

(** [list(xs).index(v)]: the first position whose element equals [v]. *)
Fixpoint list_index (xs : list PyVal) (v : PyVal) : option nat :=
  match xs with
  | [] => None
  | x :: rest =>
      if py_eq x v then Some O
      else match list_index rest v with
           | Some k => Some (S k)
           | None => None
           end
  end.

Definition is_Timestamp (v : PyVal) : bool :=
  match v with
  | Timestamp _ => true
  | _ => false
  end.

Definition is_Timedelta (v : PyVal) : bool :=
  match v with
  | Timedelta _ => true
  | _ => false
  end.

(** [np.issubdtype(axis, np.datetime64)]: the axis holds time values.  Both
    uses below index the axis next, so an empty axis never matters. *)
Definition is_datetime64 (axis : list PyVal) : bool := forallb is_Timestamp axis.

(** [v in axis] for an axis of pandas.  The lookup goes through the axis's
    engine: on a time axis an integer is looked up as a nanosecond count, so
    [0 in axis] holds when the axis contains 1970-01-01 00:00:00 although no
    entry equals [0] (the case the comment in [_getIdxFrom] guards against). *)
Definition axis_contains (v : PyVal) (axis : list PyVal) : bool :=
  existsb (fun x => py_eq x v) axis
  || (is_datetime64 axis
      && match v with
         | PyInt z | NpInt64 z => existsb (fun x => py_eq x (Timestamp z)) axis
         | _ => false
         end).

(** ** Numbers *)

Definition wrap64 (z : Z) : Z := (z + 2 ^ 63) mod 2 ^ 64 - 2 ^ 63.

Definition in_int64 (z : Z) : bool := (- 2 ^ 63 <=? z) && (z <? 2 ^ 63).

(** IEEE 754 binary64, as specified by the Standard Library. *)
Definition float64 : Type := spec_float.
Definition f64_of_Z (z : Z) : float64 := binary_normalize 53 1024 z 0 false.
Definition f64_add : float64 -> float64 -> float64 := SFadd 53 1024.
Definition f64_sub : float64 -> float64 -> float64 := SFsub 53 1024.
Definition f64_mul : float64 -> float64 -> float64 := SFmul 53 1024.
Definition f64_div : float64 -> float64 -> float64 := SFdiv 53 1024.

(** [a - b] on labels: Python integers are unbounded, numpy's wrap around,
    the difference of two time values is a duration (pandas refuses one that
    does not fit 64 bits). *)
Definition py_sub (a b : PyVal) : result PyVal :=
  match a, b with
  | (PyInt _ | PyBool _), (PyInt _ | PyBool _) =>
      match integer_value a, integer_value b with
      | Some x, Some y => Ok (PyInt (x - y))
      | _, _ => Raise (TypeError "unsupported operand type(s) for -")
      end
  | NpInt64 _, (NpInt64 _ | PyInt _ | PyBool _)
  | (PyInt _ | PyBool _), NpInt64 _ =>
      match integer_value a, integer_value b with
      | Some x, Some y => Ok (NpInt64 (wrap64 (x - y)))
      | _, _ => Raise (TypeError "unsupported operand type(s) for -")
      end
  | Timestamp x, Timestamp y =>
      if in_int64 (x - y) then Ok (Timedelta (x - y))
      else Raise (OverflowError "Result is too large")
  | Timestamp x, Timedelta y =>
      if in_int64 (x - y) then Ok (Timestamp (x - y))
      else Raise (OverflowError "Result is too large")
  | Timedelta x, Timedelta y =>
      if in_int64 (x - y) then Ok (Timedelta (x - y))
      else Raise (OverflowError "Result is too large")
  | _, _ => Raise (TypeError "unsupported operand type(s) for -")
  end.

(** [pd.to_datetime] on the entries of an axis: a time value is kept, an
    integer is read as a nanosecond count since 1970-01-01, and a duration is
    refused.  (Before version 1.0 pandas converted durations, with a warning
    about the future; it has raised a [TypeError] on them since.) *)
Definition to_datetime (v : PyVal) : result PyVal :=
  match v with
  | Timestamp ns | PyInt ns | NpInt64 ns => Ok (Timestamp ns)
  | Timedelta _ =>
      Raise (TypeError "dtype timedelta64[ns] cannot be converted to datetime64[ns]")
  | _ => Raise (TypeError "not convertible to datetime")
  end.

(** ** Tables *)

Module pd.

(** A column and its dtype: [int64], [float64], or [object]. *)
Inductive Column : Type :=
| IntCol (xs : list Z)
| FloatCol (xs : list float64)
| ObjCol (xs : list PyVal).

(** A [DataFrame]: the row labels, the column labels, and one column of cells
    per column label.  Column labels are unique (the invariant of the data
    model), so selecting columns by label selects them by position. *)
Record DataFrame : Type := mkDataFrame {
  index : list PyVal;
  columns : list PyVal;
  values : list Column
}.

(** A [Series] handed to a function by [apply]: one column, or one row. *)
Definition Series : Type := Column.

(** The dtype is a subtype of [np.number]. *)
Definition is_number (c : Column) : bool :=
  match c with
  | IntCol _ | FloatCol _ => true
  | ObjCol _ => false
  end.

Definition is_int (c : Column) : bool :=
  match c with
  | IntCol _ => true
  | _ => false
  end.

(** [df.select_dtypes(include=[np.number]).columns]. *)
Definition select_dtypes_number (df : DataFrame) : list PyVal :=
  map fst (filter (fun lc => is_number (snd lc)) (combine (columns df) (values df))).

(** [df.loc[:, numericCols]]: the block of numeric columns. *)
Definition loc_number (df : DataFrame) : list Column :=
  filter is_number (values df).

(** [df.loc[:, numericCols] = block]: every numeric column is replaced, in
    order, by the next column of [block]. *)
Fixpoint assign_number (cols block : list Column) : list Column :=
  match cols with
  | [] => []
  | c :: rest =>
      if is_number c then
        match block with
        | b :: block' => b :: assign_number rest block'
        | [] => c :: assign_number rest []
        end
      else c :: assign_number rest block
  end.

Definition int_at (c : Column) (i : nat) : Z :=
  match c with
  | IntCol xs => nth i xs 0
  | _ => 0
  end.

Definition float_at (c : Column) (i : nat) : float64 :=
  match c with
  | IntCol xs => f64_of_Z (nth i xs 0)
  | FloatCol xs => nth i xs S754_nan
  | ObjCol _ => S754_nan
  end.

(** Entry [i] of every series of [block], as one series: a row of a block of
    columns, or a column of a list of rows.  Integers stay integers when every
    series is an integer one, and become floats otherwise. *)
Definition cross (block : list Series) (i : nat) : Series :=
  if forallb is_int block then IntCol (map (fun c => int_at c i) block)
  else FloatCol (map (fun c => float_at c i) block).

(** [block.apply(func, axis=axis)] on a block of [n] rows.  When one axis is
    empty pandas returns a copy without calling [func] on the data; along
    ['index'] the function gets each column, along ['columns'] each row. *)
Definition apply (block : list Column) (n : nat)
    (func : Series -> result Series) (axis : string) : result (list Column) :=
  if ((n =? 0) || (List.length block =? 0))%nat then Ok block
  else if String.eqb axis "index" then rmap func block
  else
    (rows <- rmap func (map (cross block) (seq 0 n)) ;;
     Ok (map (cross rows) (seq 0 (List.length block))))%result.

(** [df.columns = names]. *)
Definition set_columns (df : DataFrame) (names : list PyVal) : result DataFrame :=
  if (List.length names =? List.length (columns df))%nat
  then Ok (mkDataFrame (index df) names (values df))
  else Raise (ValueError "Length mismatch").

(** [df.index = names], and [df.set_index(keys=names)] for an axis [names]. *)
Definition set_index (df : DataFrame) (names : list PyVal) : result DataFrame :=
  if (List.length names =? List.length (index df))%nat
  then Ok (mkDataFrame names (columns df) (values df))
  else Raise (ValueError "Length mismatch").

(** [pd.MultiIndex.from_tuples(tuples)]: the levels cannot be inferred from an
    empty list. *)
Definition MultiIndex_from_tuples (tuples : list PyVal) : result (list PyVal) :=
  match tuples with
  | [] => Raise (TypeError "Cannot infer number of levels from empty list")
  | _ => Ok tuples
  end.

End pd.

(** The four operators of [_execute], as [x <op> x.iloc[pos]] computes them on
    a numeric series: int64 wraps around, [/] is true division and yields
    floats, float64 follows IEEE 754. *)
Inductive Operator : Type := op_sub | op_add | op_mul | op_truediv.

Definition int_op (op : Operator) (xs : list Z) (s : Z) : pd.Series :=
  match op with
  | op_sub => pd.IntCol (map (fun v => wrap64 (v - s)) xs)
  | op_add => pd.IntCol (map (fun v => wrap64 (v + s)) xs)
  | op_mul => pd.IntCol (map (fun v => wrap64 (v * s)) xs)
  | op_truediv => pd.FloatCol (map (fun v => f64_div (f64_of_Z v) (f64_of_Z s)) xs)
  end.

Definition float_op (op : Operator) (xs : list float64) (s : float64) : pd.Series :=
  match op with
  | op_sub => pd.FloatCol (map (fun v => f64_sub v s) xs)
  | op_add => pd.FloatCol (map (fun v => f64_add v s) xs)
  | op_mul => pd.FloatCol (map (fun v => f64_mul v s) xs)
  | op_truediv => pd.FloatCol (map (fun v => f64_div v s) xs)
  end.

(** [x <op> x.iloc[pos]].  Only numeric series are ever passed. *)
Definition with_iloc (op : Operator) (pos : PyVal) (x : pd.Series) : result pd.Series :=
  match x with
  | pd.IntCol xs => (s <- iloc xs pos ;; Ok (int_op op xs s))%result
  | pd.FloatCol xs => (s <- iloc xs pos ;; Ok (float_op op xs s))%result
  | pd.ObjCol xs =>
      (_ <- iloc xs pos ;; Raise (TypeError "unsupported operand type(s)"))%result
  end.

(** ** Dictionaries *)

(** Keyword arguments: a [dict] with string keys, in insertion order. *)
Definition Kwargs : Type := list (string * PyVal).

(** [d.pop(key, default)]: the value and the dictionary without the key. *)
Definition dict_pop (d : Kwargs) (key : string) (default : PyVal) : PyVal * Kwargs :=
  (match find (fun kv => String.eqb (fst kv) key) d with
   | Some kv => snd kv
   | None => default
   end,
   filter (fun kv => negb (String.eqb (fst kv) key)) d).

(** A record of [to_dict(orient='records')]. *)
Definition PyDict : Type := list (PyVal * PyVal).

(** [d[key] = value]: an existing key keeps its place. *)
Fixpoint dict_setitem (d : PyDict) (key value : PyVal) : PyDict :=
  match d with
  | [] => [(key, value)]
  | (k, v) :: rest =>
      if py_eq k key then (k, value) :: rest
      else (k, v) :: dict_setitem rest key value
  end.

(** ** The host *)

(** What the class calls and does not implement, by capability.

    [Host] is what building and running a pipeline needs.  [World] is the
    state that the functions a user pipes, and the file system, may read and
    change; [py_format v] is [format(v)], the text an f-string puts for [v].
    [pd_concat] receives the lazy [map] object it is called with, as the
    computation that produces the tables when the iterator is consumed. *)
Class Host : Type := {
  World : Type;
  py_format : PyVal -> string;
  pd_concat :
    (World -> result (list pd.DataFrame) * World) -> PyVal -> Kwargs ->
    World -> result pd.DataFrame * World
}.

(** [df.groupby(grouper, **args)], as the pairs that iterating the grouping
    yields. *)
Class Grouper : Type := {
  pd_groupby :
    pd.DataFrame -> PyVal -> Kwargs -> result (list (PyVal * pd.DataFrame))
}.

(** What [toJSON] needs besides: [to_dict(orient='records')], [isoformat] of a
    time value, [json.dumps], and opening and writing the destination. *)
Class Exporter {host : Host} : Type := {
  to_dict_records : pd.DataFrame -> list PyDict;
  isoformat : Z -> string;
  json_dumps : list PyDict -> result string;
  open_w : PyVal -> World -> result unit * World;
  f_write : PyVal -> string -> World -> result unit * World
}.

(** ** The class [GroupByPipedTransforms] *)

Section Accessor.

Context {host : Host} {grouper : Grouper} {exporter : Exporter}.

(** Computations that may change the world and may raise. *)
Definition M (A : Type) : Type := World -> result A * World.

Definition ret {A : Type} (a : A) : M A := fun w => (Ok a, w).

Definition lift {A : Type} (r : result A) : M A := fun w => (r, w).

Definition bind {A B : Type} (m : M A) (k : A -> M B) : M B :=
  fun w =>
    match m w with
    | (Ok a, w') => k a w'
    | (Raise e, w') => (Raise e, w')
    end.

Declare Scope M_scope.
Delimit Scope M_scope with M.
Notation "x <- m ;; k" := (bind m (fun x => k))
  (at level 61, m at next level, right associativity) : M_scope.

(** A lazy [map(f, xs)], as what consuming it does: [f] runs on the entries in
    order, and stops at the first exception. *)
Fixpoint lazy_map {A B : Type} (f : A -> M B) (xs : list A) : M (list B) :=
  match xs with
  | [] => ret []
  | x :: rest => (y <- f x ;; ys <- lazy_map f rest ;; ret (y :: ys))%M
  end.

(** [functools.reduce(function, sequence, initial)]. *)
Fixpoint reduce {A B : Type} (function : A -> B -> M A) (sequence : list B)
    (initial : A) : M A :=
  match sequence with
  | [] => ret initial
  | g :: rest => (acc <- function initial g ;; reduce function rest acc)%M
  end.

(** The wrapped object: a table, or a grouping.  A grouping is represented by
    what iterating it yields, the pairs of a group key and the group's table in
    iteration order; pandas builds the tables anew at every iteration, so
    nothing a piped function does to the table it is given reaches a later
    iteration. *)
Inductive PandasObj : Type :=
| DataFrame (df : pd.DataFrame)
| DataFrameGroupBy (groups : list (PyVal * pd.DataFrame)).

(** The instance: [self._obj] and [self._pipedFunctions].  A piped function
    takes a table and returns a table; it may raise and may change the
    [World], but not the instance. *)
Record GroupByPipedTransforms : Type := mkSelf {
  _obj : PandasObj;
  _pipedFunctions : list (pd.DataFrame -> M pd.DataFrame)
}.

(** [_validatePipelineObject(obj)]: passes for a grouping only, and then
    narrows [obj] to the pairs its iteration yields. *)
Definition _validatePipelineObject (obj : PandasObj)
    : result (list (PyVal * pd.DataFrame)) :=
  match obj with
  | DataFrameGroupBy groups => Ok groups
  | DataFrame _ =>
      Raise (TypeError
        "A groupby operation has to be applied before a pipeline can be executed.")
  end.

(** [_pipe], called with the functions [funcs]. *)
Definition _pipe {A : Type} (funcs : list (A -> M A)) : A -> M A :=
  fun x => reduce (fun f g => g f) funcs x.

(** [_resetIndex(df, resetPosition, handleFuture)]; the defaults of the source
    are [0] and [True]. *)
Definition _resetIndex (df : pd.DataFrame) (resetPosition : Z)
    (handleFuture : PyVal) : result pd.DataFrame :=
  let isIndexTimeType := is_datetime64 (pd.index df) in
  let func := fun x : list PyVal =>
    (x0 <- getitem x resetPosition ;; rmap (fun v => py_sub v x0) x)%result in
  if isIndexTimeType && truthy handleFuture then
    (offsets <- func (pd.index df) ;;
     keys <- rmap to_datetime offsets ;;
     pd.set_index df keys)%result
  else
    (keys <- func (pd.index df) ;; pd.set_index df keys)%result.

(** [_getIdxFrom(idx, idxList, axis)]. *)
Definition _getIdxFrom (idx : PyVal) (idxList : list PyVal) (axis : string)
    : result PyVal :=
  (found <-
     (if axis_contains idx idxList then
        (first <- getitem idxList 0 ;; Ok (PyType_eqb (type idx) (type first)))
      else Ok false) ;;
   if found : bool then
     match list_index idxList idx with
     | Some pos => Ok (PyInt (Z.of_nat pos))
     | None => Raise (ValueError "value is not in list")
     end
   else if negb (isinstance_int idx) then
     Raise (TypeError
       (py_format idx ++ " is not a valid "
        ++ (if String.eqb axis "index" then "index" else "columns")
        ++ " identifier."))
   else if isinstance_int idx then Ok idx
   else Raise (ValueError "An error occured when retrieving the index."))%result.

(** [_execute(df, index, column, operation)].  The source changes [df] in
    place and returns it: the second component is the state of that object
    when the call ends, whether it returns or raises. *)
Definition _execute (df : pd.DataFrame) (index column operation : PyVal)
    : result unit * pd.DataFrame :=
  let numericCols := pd.select_dtypes_number df in
  let computed :=
    (axis_pos <-
       (match column with
        | PyNone =>
            (pos <- _getIdxFrom index (pd.index df) "index" ;; Ok ("index", pos))
        | _ =>
            (pos <- _getIdxFrom column numericCols "columns" ;; Ok ("columns", pos))
        end) ;;
     let axis := fst axis_pos in
     let pos := snd axis_pos in
     func <-
       (if py_eq operation (PyStr "subtract") then Ok (with_iloc op_sub pos)
        else if py_eq operation (PyStr "add") then Ok (with_iloc op_add pos)
        else if py_eq operation (PyStr "multiply") then Ok (with_iloc op_mul pos)
        else if py_eq operation (PyStr "divide") then Ok (with_iloc op_truediv pos)
        else Raise (ValueError
          "The provided operation to perform is not of subtract/add/multiply/divide")) ;;
     pd.apply (pd.loc_number df) (List.length (pd.index df)) func axis)%result in
  match computed with
  | Ok block =>
      (Ok tt,
       pd.mkDataFrame (pd.index df) (pd.columns df)
         (pd.assign_number (pd.values df) block))
  | Raise e => (Raise e, df)
  end.

(** A call of [_execute] as a piped function: [lambda x: self._execute(x, ...)]. *)
Definition executing (index column operation : PyVal)
    : pd.DataFrame -> M pd.DataFrame :=
  fun x =>
    match _execute x index column operation with
    | (Ok _, x') => ret x'
    | (Raise e, _) => lift (Raise e)
    end.

(** [groupby(grouper, **args)]. *)
Definition groupby (self : GroupByPipedTransforms) (grouper : PyVal)
    (args : Kwargs) : result GroupByPipedTransforms :=
  match _obj self with
  | DataFrame df =>
      (groups <- pd_groupby df grouper args ;;
       Ok (mkSelf (DataFrameGroupBy groups) (_pipedFunctions self)))%result
  | DataFrameGroupBy _ => Ok self
  end.

(** [pipe], called with the functions [functions]. *)
Definition pipe (self : GroupByPipedTransforms)
    (functions : list (pd.DataFrame -> M pd.DataFrame)) : GroupByPipedTransforms :=
  mkSelf (_obj self) (_pipedFunctions self ++ functions).

(** The property [pipeline]. *)
Definition pipeline (self : GroupByPipedTransforms) : pd.DataFrame -> M pd.DataFrame :=
  _pipe (_pipedFunctions self).

(** The labels [concat] computes under ['join'] and ['hierarchy'], from a
    second iteration of the grouping; [labels] is [columns] or [index]. *)
Definition joined (sep : PyVal) (labels : pd.DataFrame -> list PyVal)
    (groups : list (PyVal * pd.DataFrame)) : list PyVal :=
  flat_map
    (fun x => map (fun y => PyStr (py_format y ++ py_format sep ++ py_format (fst x)))
                  (labels (snd x)))
    groups.

Definition tupled (labels : pd.DataFrame -> list PyVal)
    (groups : list (PyVal * pd.DataFrame)) : list PyVal :=
  flat_map (fun x => map (fun y => PyTuple (fst x) y) (labels (snd x))) groups.

(** [concat(multiIndex, sep, **kwargs)]: the result, the instance and the
    world when the call ends. *)
Definition concat (self : GroupByPipedTransforms) (multiIndex sep : PyVal)
    (kwargs : Kwargs) : World -> result pd.DataFrame * GroupByPipedTransforms * World :=
  fun w =>
    let axis := fst (dict_pop kwargs "axis" (PyInt 1)) in
    let kwargs := snd (dict_pop kwargs "axis" (PyInt 1)) in
    let body :=
      (groups <- lift (_validatePipelineObject (_obj self)) ;;
       concatenated <-
         pd_concat (lazy_map (fun x => pipeline self (snd x)) groups) axis kwargs ;;
       concatenated <-
         (if py_eq axis (PyInt 1) && py_eq multiIndex (PyStr "join") then
            lift (pd.set_columns concatenated (joined sep pd.columns groups))
          else ret concatenated) ;;
       concatenated <-
         (if py_eq axis (PyInt 1) && py_eq multiIndex (PyStr "hierarchy") then
            lift (newNames <- pd.MultiIndex_from_tuples (tupled pd.columns groups) ;;
                  pd.set_columns concatenated newNames)%result
          else ret concatenated) ;;
       concatenated <-
         (if py_eq axis (PyInt 0) && py_eq multiIndex (PyStr "join") then
            lift (pd.set_index concatenated (joined sep pd.index groups))
          else ret concatenated) ;;
       concatenated <-
         (if py_eq axis (PyInt 0) && py_eq multiIndex (PyStr "hierarchy") then
            lift (newNames <- pd.MultiIndex_from_tuples (tupled pd.index groups) ;;
                  pd.set_index concatenated newNames)%result
          else ret concatenated) ;;
       ret concatenated)%M in
    match body w with
    | (Ok concatenated, w') => (Ok concatenated, mkSelf (_obj self) [], w')
    | (Raise e, w') => (Raise e, self, w')
    end.

(** [resetStartingValues()], [subtract], [add], [multiply], [divide]. *)
Definition resetStartingValues (self : GroupByPipedTransforms) : GroupByPipedTransforms :=
  pipe self [executing (PyInt 0) PyNone (PyStr "subtract")].

Definition subtract (self : GroupByPipedTransforms) (index column : PyVal)
    : GroupByPipedTransforms :=
  pipe self [executing index column (PyStr "subtract")].

Definition add (self : GroupByPipedTransforms) (index column : PyVal)
    : GroupByPipedTransforms :=
  pipe self [executing index column (PyStr "add")].

Definition multiply (self : GroupByPipedTransforms) (index column : PyVal)
    : GroupByPipedTransforms :=
  pipe self [executing index column (PyStr "multiply")].

Definition divide (self : GroupByPipedTransforms) (index column : PyVal)
    : GroupByPipedTransforms :=
  pipe self [executing index column (PyStr "divide")].

(** [resetIndex(handleFuture)]: the function piped is [self._resetIndex]
    itself, which the pipeline calls with the table alone. *)
Definition resetIndex (self : GroupByPipedTransforms) (handleFuture : PyVal)
    : GroupByPipedTransforms :=
  pipe self [fun x => lift (_resetIndex x 0 (PyBool true))].

(** The loop of [toJSON] that adds the row label to every record. *)
Fixpoint add_row_labels (records : list PyDict) (i : nat) (labels : list PyVal)
    (isIndexTimeType : bool) (rowIndicesFieldName : PyVal) : result (list PyDict) :=
  match labels with
  | [] => Ok records
  | label :: rest =>
      let idx :=
        match label with
        | Timestamp ns => if isIndexTimeType then isoformat ns else py_format label
        | _ => py_format label
        end in
      match nth_error records i with
      | None => Raise (IndexError "list index out of range")
      | Some d =>
          add_row_labels
            (firstn i records ++ dict_setitem d rowIndicesFieldName (PyStr idx)
               :: skipn (S i) records)
            (S i) rest isIndexTimeType rowIndicesFieldName
      end
  end.

Definition quote : string := String (Ascii.ascii_of_nat 34) EmptyString.

(** [toJSON(fileName, rowIndicesFieldName, addMultiIndexWithSep, **kwargs)]. *)
Definition toJSON (self : GroupByPipedTransforms)
    (fileName rowIndicesFieldName addMultiIndexWithSep : PyVal) (kwargs : Kwargs)
    : World -> result unit * GroupByPipedTransforms * World :=
  fun w =>
    match concat self
            (if truthy addMultiIndexWithSep then PyStr "join" else PyBool false)
            addMultiIndexWithSep kwargs w with
    | (Raise e, self', w') => (Raise e, self', w')
    | (Ok concatenated, self', w') =>
        let dict_toExport := to_dict_records concatenated in
        let rest :=
          (dict_toExport <-
             lift (if truthy rowIndicesFieldName then
                     add_row_labels dict_toExport 0 (pd.index concatenated)
                       (is_datetime64 (pd.index concatenated)) rowIndicesFieldName
                   else Ok dict_toExport) ;;
           _ <- open_w fileName ;;
           text <- lift (json_dumps dict_toExport) ;;
           f_write fileName ("{" ++ quote ++ "data" ++ quote ++ ": " ++ text ++ "}")%string)%M in
        match rest w' with
        | (r, w'') => (r, self', w'')
        end
    end.

(** ** The composition the specification describes *)

(** [f_n(...f_2(f_1(x)))], for the functions listed from the outermost one,
    [f_n], inwards: the innermost call is evaluated first, and an exception
    ends the evaluation. *)
Fixpoint nested {A : Type} (outer_first : list (A -> M A)) (x : A) : M A :=
  match outer_first with
  | [] => ret x
  | f :: inner => (y <- nested inner x ;; f y)%M
  end.

(** The same for functions that neither raise nor touch the world. *)
Fixpoint nested_calls {A : Type} (outer_first : list (A -> A)) (x : A) : A :=
  match outer_first with
  | [] => x
  | f :: inner => f (nested_calls inner x)
  end.

(** The manual left-to-right application of [f_1 ... f_n], given in the order
    of registration. *)
Definition left_to_right {A : Type} (fs : list (A -> M A)) (x : A) : M A :=
  nested (rev fs) x.

(** The instance after the calls [pipe(batch)] for each batch, in order. *)
Definition registered (self : GroupByPipedTransforms)
    (batches : list (list (pd.DataFrame -> M pd.DataFrame))) : GroupByPipedTransforms :=
  fold_left pipe batches self.

End Accessor.

(** ** Vocabulary of the properties *)

(** [pos] is the first position of [xs] whose entry equals [v]. *)
Definition first_match (xs : list PyVal) (v : PyVal) (pos : nat) : Prop :=
  (exists x, nth_error xs pos = Some x /\ py_eq x v = true)
  /\ forall j x, (j < pos)%nat -> nth_error xs j = Some x -> py_eq x v = false.

(** The zero of the type that subtracting two labels like [label] gives: the
    integer 0 of Python or of numpy, or the duration of no time. *)
Definition zero_like (label : PyVal) : PyVal :=
  match label with
  | NpInt64 _ => NpInt64 0
  | Timestamp _ | Timedelta _ => Timedelta 0
  | _ => PyInt 0
  end.

(** The number of cells of a column. *)
Definition size (c : pd.Column) : nat :=
  match c with
  | pd.IntCol xs => List.length xs
  | pd.FloatCol xs => List.length xs
  | pd.ObjCol xs => List.length xs
  end.

(** A table is well formed when it has one column of cells per column label
    and every column has one cell per row. *)
Definition well_formed (df : pd.DataFrame) : Prop :=
  List.length (pd.columns df) = List.length (pd.values df)
  /\ Forall (fun c => size c = List.length (pd.index df)) (pd.values df).

(** A float that is neither a NaN nor an infinity. *)
Definition is_finite (x : float64) : bool :=
  match x with
  | S754_zero _ | S754_finite _ _ _ => true
  | S754_infinity _ | S754_nan => false
  end.

(** [original[i, c] - original[0, c]] for every row [i] of a column [c]: the
    column with its cell of row 0 subtracted from every cell, in the
    arithmetic of its dtype; a column that is not numeric is left as it is. *)
Definition minus_row0 (c : pd.Column) : pd.Column :=
  match c with
  | pd.IntCol xs => pd.IntCol (map (fun v => wrap64 (v - nth 0 xs 0)) xs)
  | pd.FloatCol xs => pd.FloatCol (map (fun v => f64_sub v (nth 0 xs S754_nan)) xs)
  | pd.ObjCol xs => pd.ObjCol xs
  end.

(** The labels of a table along the axis [concat] is given: the column labels
    for [axis=1], the row labels for [axis=0]. *)
Definition axis_labels (axis : PyVal) : pd.DataFrame -> list PyVal :=
  if py_eq axis (PyInt 1) then pd.columns else pd.index.

(** Dropping the group level of a two-level label. *)
Definition droplevel (label : PyVal) : PyVal :=
  match label with
  | PyTuple _ L => L
  | _ => label
  end.

(** ** A small host *)

(** A host to run the class on examples.  The world counts the calls of the
    piped functions that choose to count; integers are formatted in decimal
    and time values by their nanosecond count; [pd_concat] consumes the
    iterator and puts side by side (or one under the other) tables that
    already share the other axis, and refuses the rest. *)
Definition decimal (z : Z) : string := NilZero.string_of_int (Z.to_int z).

Fixpoint small_format (v : PyVal) : string :=
  match v with
  | PyNone => "None"
  | PyBool true => "True"
  | PyBool false => "False"
  | PyInt z | NpInt64 z => decimal z
  | PyStr s => s
  | Timestamp ns => "Timestamp(" ++ decimal ns ++ ")"
  | Timedelta ns => "Timedelta(" ++ decimal ns ++ ")"
  | PyTuple a b => "(" ++ small_format a ++ ", " ++ small_format b ++ ")"
  end%string.

Fixpoint same_labels (a b : list PyVal) : bool :=
  match a, b with
  | [], [] => true
  | x :: a', y :: b' => py_eq x y && same_labels a' b'
  | _, _ => false
  end.

Definition under (a b : pd.Column) : pd.Column :=
  match a, b with
  | pd.IntCol xs, pd.IntCol ys => pd.IntCol (xs ++ ys)
  | pd.ObjCol xs, pd.ObjCol ys => pd.ObjCol (xs ++ ys)
  | _, _ =>
      pd.FloatCol (map (pd.float_at a) (seq 0 (size a))
                   ++ map (pd.float_at b) (seq 0 (size b)))
  end.

Fixpoint zip_under (a b : list pd.Column) : list pd.Column :=
  match a, b with
  | x :: a', y :: b' => under x y :: zip_under a' b'
  | _, _ => []
  end.

Fixpoint small_concat_tables (first : pd.DataFrame) (rest : list pd.DataFrame)
    (axis : PyVal) : result pd.DataFrame :=
  match rest with
  | [] => Ok first
  | t :: rest' =>
      if py_eq axis (PyInt 0) then
        if same_labels (pd.columns first) (pd.columns t) then
          small_concat_tables
            (pd.mkDataFrame (pd.index first ++ pd.index t) (pd.columns first)
               (zip_under (pd.values first) (pd.values t)))
            rest' axis
        else Raise (Exception "tables to align")
      else
        if same_labels (pd.index first) (pd.index t) then
          small_concat_tables
            (pd.mkDataFrame (pd.index first) (pd.columns first ++ pd.columns t)
               (pd.values first ++ pd.values t))
            rest' axis
        else Raise (Exception "tables to align")
  end.

Definition small_concat (objs : nat -> result (list pd.DataFrame) * nat)
    (axis : PyVal) (kwargs : Kwargs) : nat -> result pd.DataFrame * nat :=
  fun w =>
    match objs w with
    | (Ok [], w') => (Raise (ValueError "No objects to concatenate"), w')
    | (Ok (t :: rest), w') => (small_concat_tables t rest axis, w')
    | (Raise e, w') => (Raise e, w')
    end.

Definition small_host : Host :=
  {| World := nat; py_format := small_format; pd_concat := small_concat |}.

(** Two groups of two rows, keyed ["a"] and ["b"], on the small host. *)
Definition group_a : pd.DataFrame :=
  pd.mkDataFrame [PyInt 0; PyInt 1] [PyStr "Value"] [pd.IntCol [5; 7]].

Definition group_b : pd.DataFrame :=
  pd.mkDataFrame [PyInt 0; PyInt 1] [PyStr "Value"] [pd.IntCol [10; 40]].

Definition two_groups : list (PyVal * pd.DataFrame) :=
  [(PyStr "a", group_a); (PyStr "b", group_b)].

(** A piped function that renames every column, and counts its calls. *)
Definition renaming : pd.DataFrame -> @M small_host pd.DataFrame :=
  fun x w =>
    (Ok (pd.mkDataFrame (pd.index x) (map (fun _ => PyStr "renamed") (pd.columns x))
           (pd.values x)),
     S w).

(** ** Building the accessor *)

(** What pandas hands to the accessor, or anything else: a [Series] is its
    row labels and its cells. *)
Inductive PandasData : Type :=
| a_Series (index : list PyVal) (cells : pd.Column)
| a_DataFrame (df : pd.DataFrame).

Inductive PyObject : Type :=
| pandas (data : PandasData)
| other.

(** The outcome of building: the only exception is an [AttributeError]. *)
Inductive constructed (A : Type) : Type :=
| Built (a : A)
| AttributeError (msg : string).

Arguments Built {A} a.
Arguments AttributeError {A} msg.

(** [_validate(obj)]: passes for a [DataFrame] and for a [Series], and then
    narrows [obj] to one of them. *)
Definition _validate (obj : PyObject) : constructed PandasData :=
  match obj with
  | pandas data => Built data
  | other => AttributeError "The object must be a pandas DataFrame or Series."
  end.

(** [_convertToDataFrame(obj, colName)]: the cells of a [Series], which
    [values.ravel()] gives, become the one column [colName] over the same row
    labels; a [DataFrame] is copied. *)
Definition _convertToDataFrame (obj : PandasData) (colName : PyVal) : pd.DataFrame :=
  match obj with
  | a_Series index cells => pd.mkDataFrame index [colName] [cells]
  | a_DataFrame df => df
  end.

(** [_rename(obj, colName)]: for a table of one column, [values.ravel()] is
    the cells of that column. *)
Definition _rename (obj : pd.DataFrame) (colName : PyVal) : pd.DataFrame :=
  let outDf := obj in
  if (List.length (pd.columns obj) =? 1)%nat
  then pd.mkDataFrame (pd.index obj) [colName] (pd.values obj)
  else outDf.

Section Construction.

Context {host : Host}.

(** [__init__(pandas_obj)]. *)
Definition __init__ (pandas_obj : PyObject) : constructed GroupByPipedTransforms :=
  match _validate pandas_obj with
  | Built data => Built (mkSelf (DataFrame (_convertToDataFrame data (PyStr "Value"))) [])
  | AttributeError msg => AttributeError msg
  end.

End Construction.

(** ** More vocabulary *)

(** [original[i, c] <op> original[p, c]] for every row [i] of a column [c],
    in the arithmetic of its dtype; a column that is not numeric is left as it
    is. *)
Definition against_row (op : Operator) (p : nat) (c : pd.Column) : pd.Column :=
  match c with
  | pd.IntCol xs => int_op op xs (nth p xs 0)
  | pd.FloatCol xs => float_op op xs (nth p xs S754_nan)
  | pd.ObjCol xs => pd.ObjCol xs
  end.

(** The operator an operation name stands for. *)
Definition named (operation : PyVal) (op : Operator) : Prop :=
  match op with
  | op_sub => operation = PyStr "subtract"
  | op_add => operation = PyStr "add"
  | op_mul => operation = PyStr "multiply"
  | op_truediv => operation = PyStr "divide"
  end.

(** [original[i, c] - original[i, ref]] for each of the [n] rows of an integer
    column [c], against the integer column [ref]; a column that is not numeric
    is left as it is. *)
Definition minus_column (ref : pd.Column) (n : nat) (c : pd.Column) : pd.Column :=
  if pd.is_number c
  then pd.IntCol (map (fun i => wrap64 (pd.int_at c i - pd.int_at ref i)) (seq 0 n))
  else c.

(** Data as pandas holds it: a [Series] has one cell per row label, and a
    table is well formed. *)
Definition valid (data : PandasData) : Prop :=
  match data with
  | a_Series index cells => size cells = List.length index
  | a_DataFrame df => well_formed df
  end.

(** The cell of row [p] is finite, for a float column. *)
Definition finite_at (p : nat) (c : pd.Column) : bool :=
  match c with
  | pd.FloatCol xs => is_finite (nth p xs S754_nan)
  | _ => true
  end.

(** ** A small grouper and a small exporter *)

(** Row [i] of a column, as a column of one cell. *)
Definition row_of_column (c : pd.Column) (i : nat) : pd.Column :=
  match c with
  | pd.IntCol xs => pd.IntCol (firstn 1 (skipn i xs))
  | pd.FloatCol xs => pd.FloatCol (firstn 1 (skipn i xs))
  | pd.ObjCol xs => pd.ObjCol (firstn 1 (skipn i xs))
  end.

(** A grouper for the examples: one group per row, keyed by the row label
    (what grouping by the row axis gives when the labels are distinct). *)
Definition by_row_label : Grouper :=
  {| pd_groupby := fun df grouper args =>
       Ok (map (fun i =>
                  (nth i (pd.index df) PyNone,
                   pd.mkDataFrame (firstn 1 (skipn i (pd.index df))) (pd.columns df)
                     (map (fun c => row_of_column c i) (pd.values df))))
               (seq 0 (List.length (pd.index df)))) |}.

(** The cell of row [i] as [to_dict] boxes it: an integer stays a numpy
    integer; the examples hold no floats, which are left out as [None]. *)
Definition boxed (c : pd.Column) (i : nat) : PyVal :=
  match c with
  | pd.IntCol xs => NpInt64 (nth i xs 0)
  | pd.FloatCol _ => PyNone
  | pd.ObjCol xs => nth i xs PyNone
  end.

Definition is_NpInt64 (v : PyVal) : bool :=
  match v with
  | NpInt64 _ => true
  | _ => false
  end.

Definition json_value (v : PyVal) : string :=
  match v with
  | PyNone => "null"
  | PyBool true => "true"
  | PyBool false => "false"
  | PyInt z => decimal z
  | _ => quote ++ small_format v ++ quote
  end%string.

Definition json_record (d : PyDict) : string :=
  ("{" ++ String.concat ", "
            (map (fun kv => quote ++ small_format (fst kv) ++ quote ++ ": "
                            ++ json_value (snd kv)) d)
   ++ "}")%string.

Definition small_open (fileName : PyVal) (w : nat) : result unit * nat := (Ok tt, S w).

Definition small_write (fileName : PyVal) (text : string) (w : nat)
    : result unit * nat :=
  (Ok tt, S w).

(** One record per row, of the boxed cells by column label. *)
Definition small_to_dict (df : pd.DataFrame) : list PyDict :=
  map (fun i => combine (pd.columns df) (map (fun c => boxed c i) (pd.values df)))
      (seq 0 (List.length (pd.index df))).

Definition small_isoformat (ns : Z) : string := ("T+" ++ decimal ns)%string.

Definition small_dumps (records : list PyDict) : result string :=
  if existsb (fun d => existsb (fun kv => is_NpInt64 (snd kv)) d) records
  then Raise (TypeError "Object of type int64 is not JSON serializable")
  else Ok ("[" ++ String.concat ", " (map json_record records) ++ "]")%string.

(** An exporter for the examples, on the small host.  Like the [json] module
    it refuses numpy integers; opening the destination and writing to it
    count as one step of the world each. *)
Definition small_exporter : @Exporter small_host :=
  @Build_Exporter small_host small_to_dict small_isoformat small_dumps
    small_open small_write.

(** A piped function that drops every column. *)
Definition dropping : pd.DataFrame -> @M small_host pd.DataFrame :=
  fun x w => (Ok (pd.mkDataFrame (pd.index x) [] []), w).

(** A table of an integer, a float and a text column. *)
Definition mixed_table : pd.DataFrame :=
  pd.mkDataFrame [PyInt 0; PyInt 1] [PyStr "a"; PyStr "b"; PyStr "c"]
    [pd.IntCol [10; 40]; pd.FloatCol [f64_of_Z 1; f64_of_Z 3];
     pd.ObjCol [PyStr "u"; PyStr "v"]].

(** A table of two integer columns. *)
Definition two_columns : pd.DataFrame :=
  pd.mkDataFrame [PyInt 0; PyInt 1] [PyStr "a"; PyStr "b"]
    [pd.IntCol [5; 7]; pd.IntCol [10; 40]].

(** A group of text cells, which the small exporter can serialize. *)
Definition group_t : pd.DataFrame :=
  pd.mkDataFrame [PyInt 0; PyInt 1] [PyStr "Value"] [pd.ObjCol [PyStr "u"; PyStr "v"]].

Section RowLabels.

Context {host : Host} {exporter : Exporter}.

(** The text [toJSON] puts for a row label: [isoformat] on a time axis, the
    f-string otherwise. *)
Definition row_label_text (isIndexTimeType : bool) (label : PyVal) : string :=
  match label with
  | Timestamp ns => if isIndexTimeType then isoformat ns else py_format label
  | _ => py_format label
  end.

End RowLabels.

(** * Properties *)

Section Pipeline.

Context {host : Host}.

Lemma bind_ext {A B : Type} (m m' : M A) (k : A -> M B) (w : World) :
  m w = m' w -> bind m k w = bind m' k w.
Proof. unfold bind. intros ->. reflexivity. Qed.

Lemma bind_ret_r {A : Type} (m : M A) (w : World) : bind m ret w = m w.
Proof.
  unfold bind, ret. destruct (m w) as [[a | e] w']; reflexivity.
Qed.


Lemma _pipe_cons {A : Type} (f : A -> M A) (fs : list (A -> M A)) (x : A) (w : World) :
  _pipe (f :: fs) x w = bind (f x) (_pipe fs) w.
Proof. reflexivity. Qed.

(** Running [fs ++ gs] is running [fs] and then, on its result, [gs]. *)
Lemma _pipe_app {A : Type} (fs gs : list (A -> M A)) :
  forall (x : A) (w : World), _pipe (fs ++ gs) x w = bind (_pipe fs x) (_pipe gs) w.
Proof.
  induction fs as [| f fs IH]; intros x w.
  - reflexivity.
  - rewrite <- app_comm_cons, (_pipe_cons f (fs ++ gs)).
    unfold bind. rewrite (_pipe_cons f fs). unfold bind.
    destruct (f x w) as [[y | e] w1]; [apply IH | reflexivity].
Qed.

Lemma _pipe_left_to_right {A : Type} (fs : list (A -> M A)) :
  forall (x : A) (w : World), _pipe fs x w = left_to_right fs x w.
Proof.
  unfold left_to_right.
  induction fs as [| g fs IH] using rev_ind; intros x w.
  - reflexivity.
  - rewrite _pipe_app, rev_unit. cbn [nested].
    rewrite (bind_ext _ _ _ _ (IH x w)). unfold bind.
    destruct (nested (rev fs) x w) as [[y | e] w1]; [| reflexivity].
    rewrite _pipe_cons. apply bind_ret_r.
Qed.

Lemma _pipe_pure {A : Type} (gs : list (A -> A)) :
  forall (x : A) (w : World),
    _pipe (map (fun g y => ret (g y)) gs) x w = (Ok (nested_calls (rev gs) x), w).
Proof.
  induction gs as [| g gs IH] using rev_ind; intros x w.
  - reflexivity.
  - rewrite map_app, _pipe_app, rev_unit. unfold bind. rewrite IH. reflexivity.
Qed.

Lemma registered_functions (batches : list (list (pd.DataFrame -> M pd.DataFrame))) :
  forall self : GroupByPipedTransforms,
    _pipedFunctions (registered self batches) = _pipedFunctions self ++ List.concat batches
    /\ _obj (registered self batches) = _obj self.
Proof.
  unfold registered.
  induction batches as [| b batches IH]; intros self; cbn [fold_left List.concat].
  - now rewrite app_nil_r.
  - destruct (IH (pipe self b)) as [-> ->]. cbn. now rewrite app_assoc.
Qed.

(** C1.  Whatever functions are registered through [pipe], in one call or in
    several, the composed [pipeline] applied to [x] is the left-to-right
    application [f_n(...f_2(f_1(x)))] of the functions in the order of
    registration: for functions that may raise or have effects, with the same
    result, exception and world; for plain functions, with the nested
    application as value.  With nothing registered it returns [x] unchanged. *)
Theorem pipeline_applies_left_to_right :
  forall (obj : PandasObj) (batches : list (list (pd.DataFrame -> M pd.DataFrame)))
         (gs : list (pd.DataFrame -> pd.DataFrame)) (x : pd.DataFrame) (w : World),
    pipeline (registered (mkSelf obj []) batches) x w
      = left_to_right (List.concat batches) x w
    /\ pipeline (registered (mkSelf obj []) (map (fun g => [fun y => ret (g y)]) gs)) x w
      = (Ok (nested_calls (rev gs) x), w)
    /\ pipeline (mkSelf obj []) x w = (Ok x, w).
Proof.
  intros obj batches gs x w. unfold pipeline. repeat split.
  - destruct (registered_functions batches (mkSelf obj [])) as [-> _].
    apply _pipe_left_to_right.
  - destruct (registered_functions (map (fun g => [fun y => ret (g y)]) gs)
                (mkSelf obj [])) as [-> _].
    cbn [_pipedFunctions app].
    replace (List.concat (map (fun g => [fun y : pd.DataFrame => ret (g y)]) gs))
      with (map (fun (g : pd.DataFrame -> pd.DataFrame) y => ret (g y)) gs)
      by (induction gs; cbn; congruence).
    apply _pipe_pure.
Qed.

End Pipeline.

(** * The axis resolver *)

Section Resolver.

Context {host : Host}.

Lemma list_index_first_match (xs : list PyVal) (v : PyVal) :
  forall pos, list_index xs v = Some pos -> first_match xs v pos.
Proof.
  induction xs as [| x xs IH]; intros pos H; cbn in H; [discriminate |].
  destruct (py_eq x v) eqn:E.
  - injection H as <-. split; [exists x; now split | intros j y Hj; lia].
  - destruct (list_index xs v) as [k |] eqn:Ek; [| discriminate].
    injection H as <-. destruct (IH k eq_refl) as [Hx Hbefore]. split; [exact Hx |].
    intros [| j] y Hj Hy; cbn in Hy.
    + now injection Hy as <-.
    + apply (Hbefore j y); [lia | exact Hy].
Qed.

Lemma list_index_found (xs : list PyVal) (v : PyVal) :
  existsb (fun x => py_eq x v) xs = true -> exists pos, list_index xs v = Some pos.
Proof.
  induction xs as [| x xs IH]; cbn; [discriminate |].
  destruct (py_eq x v); [now exists O |]. cbn. intros H.
  destruct (IH H) as [k ->]. now exists (S k).
Qed.

(** A selector of the type of the first entry that the axis contains is equal
    to some entry: the lookup of an integer as a time value is ruled out by
    the type. *)
Lemma contained_same_type (idx first : PyVal) (rest : list PyVal) :
  axis_contains idx (first :: rest) = true ->
  type idx = type first ->
  existsb (fun x => py_eq x idx) (first :: rest) = true.
Proof.
  unfold axis_contains. intros H Ht.
  apply orb_true_iff in H as [H | H]; [exact H |].
  apply andb_true_iff in H as [Hd Hv]. cbn in Hd.
  apply andb_true_iff in Hd as [Hf _].
  destruct first; try discriminate Hf.
  destruct idx; discriminate Hv || discriminate Ht.
Qed.

Lemma PyType_eqb_eq (a b : PyType) : PyType_eqb a b = true <-> a = b.
Proof. destruct a, b; cbn; split; congruence. Qed.

(** C4.  On a non-empty list of axis values, [_getIdxFrom]
    - returns the first matching position when the selector occurs in the axis
      values and has the type of the first one;
    - otherwise raises a [TypeError] whose message starts with the selector
      when the selector is not an integer;
    - otherwise, the selector being an integer that is not found or is found
      with another type, returns the selector unchanged. *)
Theorem _getIdxFrom_resolves :
  forall (idx first : PyVal) (rest : list PyVal) (axis : string),
    let idxList := first :: rest in
    (axis_contains idx idxList = true -> type idx = type first ->
       exists pos, _getIdxFrom idx idxList axis = Ok (PyInt (Z.of_nat pos))
                   /\ first_match idxList idx pos)
    /\ (isinstance_int idx = false ->
        axis_contains idx idxList = false \/ type idx <> type first ->
        _getIdxFrom idx idxList axis
          = Raise (TypeError
              (py_format idx ++ " is not a valid "
               ++ (if String.eqb axis "index" then "index" else "columns")
               ++ " identifier.")))
    /\ (isinstance_int idx = true ->
        axis_contains idx idxList = false \/ type idx <> type first ->
        _getIdxFrom idx idxList axis = Ok idx).
Proof.
  intros idx first rest axis idxList. subst idxList. unfold _getIdxFrom.
  repeat split.
  - intros Hin Ht. rewrite Hin. cbn [getitem position List.length rbind].
    change (getitem (first :: rest) 0) with (@Ok PyVal first). cbn [rbind].
    destruct (list_index_found _ _ (contained_same_type _ _ _ Hin Ht)) as [pos Hpos].
    apply PyType_eqb_eq in Ht as ->.
    exists pos. rewrite Hpos. split; [reflexivity |].
    now apply list_index_first_match.
  - intros Hint [Hin | Ht].
    + rewrite Hin. cbn [rbind]. now rewrite Hint.
    + destruct (axis_contains idx (first :: rest)).
      * change (getitem (first :: rest) 0) with (@Ok PyVal first). cbn [rbind].
        destruct (PyType_eqb (type idx) (type first)) eqn:E;
          [now apply PyType_eqb_eq in E |]. now rewrite Hint.
      * cbn [rbind]. now rewrite Hint.
  - intros Hint [Hin | Ht].
    + rewrite Hin. cbn [rbind]. now rewrite Hint.
    + destruct (axis_contains idx (first :: rest)).
      * change (getitem (first :: rest) 0) with (@Ok PyVal first). cbn [rbind].
        destruct (PyType_eqb (type idx) (type first)) eqn:E;
          [now apply PyType_eqb_eq in E |]. now rewrite Hint.
      * cbn [rbind]. now rewrite Hint.
Qed.

(** X2.  On an integer axis as pandas stores it, with [numpy.int64] entries,
    a Python [int] selector never has the type of the first entry: it is
    returned unchanged, as a position, whether or not it occurs as a label. *)
Theorem _getIdxFrom_int_on_int64_axis :
  forall (z first : Z) (rest : list PyVal) (axis : string),
    _getIdxFrom (PyInt z) (NpInt64 first :: rest) axis = Ok (PyInt z).
Proof.
  intros z first rest axis. unfold _getIdxFrom.
  destruct (axis_contains (PyInt z) (NpInt64 first :: rest)); reflexivity.
Qed.

End Resolver.

(** * The index normalizer *)

Section Normalizer.

Context {host : Host}.

Lemma rmap_entries {A B : Type} (f : A -> result B) (xs : list A) :
  forall ys, rmap f xs = Ok ys ->
    List.length ys = List.length xs
    /\ forall i x, nth_error xs i = Some x ->
         exists y, f x = Ok y /\ nth_error ys i = Some y.
Proof.
  induction xs as [| x xs IH]; intros ys H; cbn in H.
  - injection H as <-. split; [reflexivity |]. now intros [| i] x H.
  - destruct (f x) as [y | e] eqn:Ey; [| discriminate]. cbn in H.
    destruct (rmap f xs) as [ys' | e]; [| discriminate]. cbn in H.
    injection H as <-. destruct (IH ys' eq_refl) as [Hlen Hnth].
    split; [cbn; congruence |].
    intros [| i] x' Hx; cbn in Hx.
    + injection Hx as <-. now exists y.
    + now apply Hnth.
Qed.

Lemma rmap_defined {A B : Type} (f : A -> result B) (g : A -> B) (xs : list A) :
  (forall x, In x xs -> f x = Ok (g x)) -> rmap f xs = Ok (map g xs).
Proof.
  induction xs as [| x xs IH]; intros H; cbn; [reflexivity |].
  rewrite (H x (or_introl eq_refl)). cbn.
  rewrite IH by (intros y Hy; apply H; now right). reflexivity.
Qed.

Lemma getitem_first {A : Type} (first : A) (rest : list A) :
  getitem (first :: rest) 0 = Ok first.
Proof. reflexivity. Qed.

Lemma wrap64_0 : wrap64 0 = 0.
Proof. reflexivity. Qed.

(** A label minus itself, when defined, is the zero of its type. *)
Lemma py_sub_diag (a d : PyVal) : py_sub a a = Ok d -> d = zero_like a.
Proof.
  destruct a as [| b | x | s | x | t | t | a1 a2]; cbn; try discriminate;
    try (destruct (in_int64 _); [| discriminate]);
    intros H; injection H as <-; cbn;
    rewrite ?Z.sub_diag, ?wrap64_0; reflexivity.
Qed.

(** The offsets of a time axis are durations. *)
Lemma time_axis_offsets (t0 : Z) (axis offsets : list PyVal) :
  is_datetime64 axis = true ->
  rmap (fun v => py_sub v (Timestamp t0)) axis = Ok offsets ->
  forallb is_Timedelta offsets = true
  /\ forall i v, nth_error axis i = Some v ->
       exists t, v = Timestamp t /\ nth_error offsets i = Some (Timedelta (t - t0)).
Proof.
  revert offsets. induction axis as [| v axis IH]; intros offsets Hd H; cbn in H.
  - injection H as <-. split; [reflexivity |]. now intros [| i] v H.
  - cbn in Hd. apply andb_true_iff in Hd as [Hv Hd].
    destruct v as [| | | | | t | |]; try discriminate Hv. cbn in H.
    destruct (in_int64 (t - t0)); [| discriminate]. cbn in H.
    destruct (rmap (fun v => py_sub v (Timestamp t0)) axis) as [offs |] eqn:E;
      [| discriminate].
    cbn in H. injection H as <-.
    destruct (IH offs Hd eq_refl) as (Hdur & Hnth).
    split; [exact Hdur |].
    intros [| i] v Hi; cbn in Hi.
    + injection Hi as <-. now exists t.
    + now apply Hnth.
Qed.

(** [pd.to_datetime] refuses an axis of durations. *)
Lemma to_datetime_durations (d : PyVal) (rest : list PyVal) :
  is_Timedelta d = true ->
  rmap to_datetime (d :: rest)
  = Raise (TypeError "dtype timedelta64[ns] cannot be converted to datetime64[ns]").
Proof. destruct d; try discriminate. reflexivity. Qed.

(** What [_resetIndex] computes with the reference position 0: the offsets,
    unless the axis is time-like and [handleFuture] is truthy; then the
    conversion of the offsets is refused. *)
Lemma _resetIndex_rebases :
  forall (df : pd.DataFrame) (first : PyVal) (rest offsets : list PyVal)
         (handleFuture : PyVal),
    pd.index df = first :: rest ->
    rmap (fun v => py_sub v first) (pd.index df) = Ok offsets ->
    (is_datetime64 (pd.index df) && truthy handleFuture = false ->
     _resetIndex df 0 handleFuture
       = Ok (pd.mkDataFrame offsets (pd.columns df) (pd.values df))
     /\ List.length offsets = List.length (pd.index df)
     /\ (forall i v, nth_error (pd.index df) i = Some v ->
           exists d, py_sub v first = Ok d /\ nth_error offsets i = Some d)
     /\ nth_error offsets 0 = Some (zero_like first))
    /\ (is_datetime64 (pd.index df) && truthy handleFuture = true ->
        _resetIndex df 0 handleFuture
        = Raise (TypeError
                   "dtype timedelta64[ns] cannot be converted to datetime64[ns]")).
Proof.
  intros df first rest offsets handleFuture Hidx Hsub. unfold _resetIndex.
  rewrite Hidx in *. rewrite getitem_first. cbn [rbind]. rewrite Hsub.
  cbn [rbind].
  destruct (rmap_entries _ _ _ Hsub) as [Hlen Hnth].
  split; intros Hb; rewrite Hb.
  - unfold pd.set_index. rewrite Hidx, Hlen, Nat.eqb_refl.
    split; [reflexivity |]. split; [reflexivity |]. split; [exact Hnth |].
    destruct (Hnth O first eq_refl) as (d & Hd0 & Hk0).
    now rewrite <- (py_sub_diag _ _ Hd0).
  - apply andb_true_iff in Hb as [Hd _].
    assert (exists t0, first = Timestamp t0) as [t0 ->].
    { cbn in Hd. apply andb_true_iff in Hd as [Hf _].
      destruct first; try discriminate Hf. now eexists. }
    destruct (time_axis_offsets t0 _ _ Hd Hsub) as [_ Hdur].
    destruct (Hdur O (Timestamp t0) eq_refl) as (t & Ht & Ho).
    destruct offsets as [| d offs]; [discriminate Ho |].
    cbn in Ho. injection Ho as ->.
    now rewrite to_datetime_durations.
Qed.

(** The step that [resetIndex] registers is [_resetIndex] with its defaults,
    and leaves the world alone. *)
Lemma resetIndex_step (obj : PandasObj) (handleFuture : PyVal) (df : pd.DataFrame)
    (w : World) :
  pipeline (resetIndex (mkSelf obj []) handleFuture) df w
  = (_resetIndex df 0 (PyBool true), w).
Proof.
  unfold pipeline, resetIndex, pipe, _pipe. cbn. unfold bind, lift, ret.
  destruct (_resetIndex df 0 (PyBool true)); reflexivity.
Qed.


End Normalizer.

(** * Registering the normalizer *)

Section Registration.

Context {host : Host}.

(** C7 does not hold of the code.  [resetIndex] pipes [_resetIndex] itself and
    drops [handleFuture], so the registered step always runs with the default
    [handleFuture=True]: whatever is passed, the instance is the one
    [resetIndex(True)] gives.  On a time-like axis on which the subtraction of
    the first entry is defined, the registered step therefore raises the
    [TypeError] of [pd.to_datetime], whatever [handleFuture] was given, where
    [_resetIndex] called with a falsy [handleFuture] returns the table with
    the durations as row axis.  So on the time axis
    [1970-01-01 + 5ns, 1970-01-01 + 8ns] the step registered with
    [handleFuture=False] raises, and [_resetIndex] with [handleFuture=False]
    returns the durations [0ns, 3ns]. *)
Theorem resetIndex_drops_handleFuture :
  forall (self : GroupByPipedTransforms) (handleFuture : PyVal) (obj : PandasObj)
         (w : World),
    resetIndex self handleFuture = resetIndex self (PyBool true)
    /\ (forall (df : pd.DataFrame) (first : PyVal) (rest offsets : list PyVal),
          pd.index df = first :: rest ->
          is_datetime64 (pd.index df) = true ->
          rmap (fun v => py_sub v first) (pd.index df) = Ok offsets ->
          pipeline (resetIndex (mkSelf obj []) handleFuture) df w
          = (Raise (TypeError
                      "dtype timedelta64[ns] cannot be converted to datetime64[ns]"),
             w)
          /\ (truthy handleFuture = false ->
              _resetIndex df 0 handleFuture
              = Ok (pd.mkDataFrame offsets (pd.columns df) (pd.values df))
              /\ forallb is_Timedelta offsets = true))
    /\ pipeline (resetIndex (mkSelf obj []) (PyBool false))
         (pd.mkDataFrame [Timestamp 5; Timestamp 8] [PyStr "v"] [pd.IntCol [10; 20]]) w
       = (Raise (TypeError
                   "dtype timedelta64[ns] cannot be converted to datetime64[ns]"),
          w)
    /\ _resetIndex
         (pd.mkDataFrame [Timestamp 5; Timestamp 8] [PyStr "v"] [pd.IntCol [10; 20]])
         0 (PyBool false)
       = Ok (pd.mkDataFrame [Timedelta 0; Timedelta 3] [PyStr "v"] [pd.IntCol [10; 20]]).
Proof.
  intros self handleFuture obj w. split; [reflexivity |].
  split; [| split; reflexivity].
  intros df first rest offsets Hidx Hd Hsub. split.
  - rewrite resetIndex_step.
    destruct (_resetIndex_rebases df first rest offsets (PyBool true) Hidx Hsub)
      as [_ Htime].
    rewrite Htime; [reflexivity |]. now rewrite Hd.
  - intros Hf.
    destruct (_resetIndex_rebases df first rest offsets handleFuture Hidx Hsub)
      as [Hnum _].
    destruct Hnum as (Hrun & _); [rewrite Hf; apply andb_false_r |].
    split; [exact Hrun |].
    assert (exists t0, first = Timestamp t0) as [t0 ->].
    { rewrite Hidx in Hd. cbn in Hd. apply andb_true_iff in Hd as [Hfirst _].
      destruct first; try discriminate Hfirst. now eexists. }
    exact (proj1 (time_axis_offsets t0 _ _ Hd Hsub)).
Qed.

End Registration.

(** * The row and column operator *)

Section Operator.

Context {host : Host}.

Lemma py_eq_PyStr (v : PyVal) (s : string) : py_eq v (PyStr s) = true <-> v = PyStr s.
Proof.
  destruct v as [| b | z | t | z | ns | ns | a b]; cbn;
    try (split; discriminate).
  rewrite String.eqb_eq. split; congruence.
Qed.

Lemma py_eq_not_PyStr (v : PyVal) (s : string) : v <> PyStr s -> py_eq v (PyStr s) = false.
Proof.
  intros H. destruct (py_eq v (PyStr s)) eqn:E; [| reflexivity].
  now apply py_eq_PyStr in E.
Qed.

(** C8.  When the selector resolves (the row selector against the row axis,
    or the column selector against the numeric column labels), an operation
    other than ['subtract'], ['add'], ['multiply'] and ['divide'] makes
    [_execute] raise the [ValueError] of the source and leave the table as it
    was. *)
Theorem _execute_invalid_operation :
  forall (df : pd.DataFrame) (index column operation pos : PyVal),
    operation <> PyStr "subtract" ->
    operation <> PyStr "add" ->
    operation <> PyStr "multiply" ->
    operation <> PyStr "divide" ->
    match column with
    | PyNone => _getIdxFrom index (pd.index df) "index"
    | _ => _getIdxFrom column (pd.select_dtypes_number df) "columns"
    end = Ok pos ->
    _execute df index column operation
    = (Raise (ValueError
         "The provided operation to perform is not of subtract/add/multiply/divide"),
       df).
Proof.
  intros df index column operation pos Hs Ha Hm Hd Hpos. unfold _execute.
  destruct column; rewrite Hpos; cbn [rbind fst snd];
    rewrite (py_eq_not_PyStr _ _ Hs), (py_eq_not_PyStr _ _ Ha),
            (py_eq_not_PyStr _ _ Hm), (py_eq_not_PyStr _ _ Hd);
    reflexivity.
Qed.

Lemma assign_number_map (f : pd.Column -> pd.Column) (cols : list pd.Column) :
  pd.assign_number cols (map f (filter pd.is_number cols))
  = map (fun c => if pd.is_number c then f c else c) cols.
Proof.
  induction cols as [| c cols IH]; [reflexivity |].
  cbn [filter map pd.assign_number].
  destruct (pd.is_number c) eqn:E; cbn [map pd.assign_number]; now rewrite IH.
Qed.

Lemma minus_row0_empty (c : pd.Column) : size c = O -> minus_row0 c = c.
Proof.
  destruct c as [xs | xs | xs]; cbn; intros H;
    apply length_zero_iff_nil in H; now subst.
Qed.

Lemma minus_row0_object (c : pd.Column) : pd.is_number c = false -> minus_row0 c = c.
Proof. destruct c; cbn; [discriminate | discriminate | reflexivity]. Qed.

Lemma with_iloc_row0 (c : pd.Column) :
  pd.is_number c = true -> size c <> O ->
  with_iloc op_sub (PyInt 0) c = Ok (minus_row0 c).
Proof.
  destruct c as [[| x xs] | [| x xs] | xs]; cbn [pd.is_number size List.length];
    intros Hn Hs; try discriminate Hn; try (now elim Hs); reflexivity.
Qed.

Lemma wrap64_diag (x : Z) : wrap64 (x - x) = 0.
Proof. now rewrite Z.sub_diag. Qed.

(** IEEE 754: [x - x] is [+0] for a finite [x], and a NaN otherwise. *)
Lemma f64_sub_diag (x : float64) :
  f64_sub x x = if is_finite x then S754_zero false else S754_nan.
Proof.
  destruct x as [s | s | | s m e]; cbn.
  - now destruct s.
  - now destruct s.
  - reflexivity.
  - unfold f64_sub, SFsub. now rewrite Z.sub_diag.
Qed.

Lemma _execute_subtract_row0 (df : pd.DataFrame) (index : PyVal) :
  well_formed df ->
  _getIdxFrom index (pd.index df) "index" = Ok (PyInt 0) ->
  _execute df index PyNone (PyStr "subtract")
  = (Ok tt,
     pd.mkDataFrame (pd.index df) (pd.columns df) (map minus_row0 (pd.values df))).
Proof.
  intros [_ Hwf] Hpos.
  unfold _execute. rewrite Hpos. cbn [rbind fst snd].
  change (py_eq (PyStr "subtract") (PyStr "subtract")) with true.
  cbn [rbind]. unfold pd.apply, pd.loc_number.
  change (String.eqb "index" "index") with true.
  destruct ((List.length (pd.index df) =? 0)%nat
            || (List.length (filter pd.is_number (pd.values df)) =? 0)%nat) eqn:E.
  - do 3 f_equal.
    rewrite <- (map_id (filter pd.is_number (pd.values df))) at 1.
    rewrite assign_number_map. apply map_ext_in. intros c Hc.
    apply orb_true_iff in E as [E | E]; apply Nat.eqb_eq in E.
    + rewrite minus_row0_empty; [now destruct (pd.is_number c) |].
      rewrite Forall_forall in Hwf. now rewrite (Hwf c Hc).
    + destruct (pd.is_number c) eqn:En; [| now rewrite minus_row0_object].
      apply length_zero_iff_nil in E.
      assert (In c (filter pd.is_number (pd.values df))) as Hin
        by (apply filter_In; now split).
      rewrite E in Hin. destruct Hin.
  - apply orb_false_iff in E as [En _]. apply Nat.eqb_neq in En.
    rewrite (rmap_defined _ minus_row0).
    + do 3 f_equal. rewrite assign_number_map. apply map_ext_in. intros c Hc.
      destruct (pd.is_number c) eqn:Ec; [reflexivity | now rewrite minus_row0_object].
    + intros c Hc. apply filter_In in Hc as [Hc Hnum].
      apply with_iloc_row0; [exact Hnum |].
      rewrite Forall_forall in Hwf. now rewrite (Hwf c Hc).
Qed.

(** C9, as the code has it.  On a well-formed table, ['subtract'] with a row
    selector that resolves to position 0 returns, called as [_execute] or run
    as the step that [subtract] registers, and leaves the table with the same
    labels and every column [c] replaced by [minus_row0 c]: a numeric cell of
    row [i] becomes [original[i, c] - original[0, c]] in the arithmetic of the
    column, and a column that is not numeric is unchanged.  The cell of row 0
    becomes exactly 0 in an integer column, and in a float column when the
    original cell is finite; a NaN or an infinity there gives a NaN. *)
Theorem subtract_row0 :
  forall (obj : PandasObj) (w : World) (df : pd.DataFrame) (index : PyVal),
    well_formed df ->
    _getIdxFrom index (pd.index df) "index" = Ok (PyInt 0) ->
    _execute df index PyNone (PyStr "subtract")
    = (Ok tt,
       pd.mkDataFrame (pd.index df) (pd.columns df) (map minus_row0 (pd.values df)))
    /\ pipeline (subtract (mkSelf obj []) index PyNone) df w
       = (Ok (pd.mkDataFrame (pd.index df) (pd.columns df)
                (map minus_row0 (pd.values df))),
          w)
    /\ (forall x0 rest,
          minus_row0 (pd.IntCol (x0 :: rest))
          = pd.IntCol (0 :: map (fun v => wrap64 (v - x0)) rest))
    /\ (forall x0 rest,
          minus_row0 (pd.FloatCol (x0 :: rest))
          = pd.FloatCol ((if is_finite x0 then S754_zero false else S754_nan)
                         :: map (fun v => f64_sub v x0) rest))
    /\ (forall xs, minus_row0 (pd.ObjCol xs) = pd.ObjCol xs).
Proof.
  intros obj w df index Hwf Hpos.
  pose proof (_execute_subtract_row0 df index Hwf Hpos) as Hrun.
  split; [exact Hrun |]. split; [| split; [| split]].
  - unfold pipeline, subtract, pipe, _pipe. cbn [_pipedFunctions _obj app reduce].
    unfold bind, executing. now rewrite Hrun.
  - intros x0 rest. cbn. now rewrite wrap64_diag.
  - intros x0 rest. cbn. now rewrite f64_sub_diag.
  - reflexivity.
Qed.

End Operator.

(** * Reassembly *)

Section Reassembly.

Context {host : Host} {exporter : Exporter}.

(** C6.  On an instance that wraps a table and not a grouping, [concat] and
    [toJSON] raise the [TypeError] of [_validatePipelineObject] at once:
    whatever the pipeline, the arguments and the host are, the instance and the
    world are as they were, so no piped function has run, [pd.concat] has not
    been called and nothing has been written. *)
Theorem reassembly_needs_grouping :
  forall (df : pd.DataFrame) (fs : list (pd.DataFrame -> M pd.DataFrame))
         (multiIndex sep fileName rowIndicesFieldName addMultiIndexWithSep : PyVal)
         (kwargs : Kwargs) (w : World),
    concat (mkSelf (DataFrame df) fs) multiIndex sep kwargs w
    = (Raise (TypeError
         "A groupby operation has to be applied before a pipeline can be executed."),
       mkSelf (DataFrame df) fs, w)
    /\ toJSON (mkSelf (DataFrame df) fs) fileName rowIndicesFieldName
         addMultiIndexWithSep kwargs w
       = (Raise (TypeError
            "A groupby operation has to be applied before a pipeline can be executed."),
          mkSelf (DataFrame df) fs, w).
Proof.
  intros. split; reflexivity.
Qed.

(** C5.  When [concat] returns, the instance it leaves wraps the same object
    and has an empty pipeline, so the next pipeline starts from the identity;
    when [concat] raises, wherever it does, the instance is exactly as it
    was, pipeline included. *)
Theorem concat_clears_pipeline_on_success_only :
  forall (self : GroupByPipedTransforms) (multiIndex sep : PyVal) (kwargs : Kwargs)
         (w : World),
    match concat self multiIndex sep kwargs w with
    | (Ok _, self', _) =>
        _obj self' = _obj self
        /\ _pipedFunctions self' = []
        /\ forall x w', pipeline self' x w' = (Ok x, w')
    | (Raise _, self', _) => self' = self
    end.
Proof.
  intros self multiIndex sep kwargs w. unfold concat.
  match goal with
  | |- context [match ?body w with _ => _ end] => destruct (body w) as [[c | e] w']
  end.
  - repeat split.
  - reflexivity.
Qed.

Lemma join_is_join : py_eq (PyStr "join") (PyStr "join") = true.
Proof. reflexivity. Qed.

Lemma join_is_not_hierarchy : py_eq (PyStr "join") (PyStr "hierarchy") = false.
Proof. reflexivity. Qed.

Lemma hierarchy_is_hierarchy : py_eq (PyStr "hierarchy") (PyStr "hierarchy") = true.
Proof. reflexivity. Qed.

Lemma hierarchy_is_not_join : py_eq (PyStr "hierarchy") (PyStr "join") = false.
Proof. reflexivity. Qed.

Lemma axis_1_is_1 : py_eq (PyInt 1) (PyInt 1) = true.
Proof. reflexivity. Qed.

Lemma axis_1_is_not_0 : py_eq (PyInt 1) (PyInt 0) = false.
Proof. reflexivity. Qed.

Lemma axis_0_is_0 : py_eq (PyInt 0) (PyInt 0) = true.
Proof. reflexivity. Qed.

Lemma axis_0_is_not_1 : py_eq (PyInt 0) (PyInt 1) = false.
Proof. reflexivity. Qed.

Create Rewrite HintDb concat_branches.

#[local] Hint Rewrite axis_1_is_1 axis_1_is_not_0 axis_0_is_0 axis_0_is_not_1
  join_is_join join_is_not_hierarchy hierarchy_is_hierarchy hierarchy_is_not_join
  : concat_branches.

(** Decides the four tests of [concat] once the axis and the mode are known. *)
Ltac decide_branches := autorewrite with concat_branches; cbn [andb].

Lemma set_columns_labels (df df' : pd.DataFrame) (names : list PyVal) :
  pd.set_columns df names = Ok df' ->
  pd.columns df' = names /\ pd.index df' = pd.index df /\ pd.values df' = pd.values df.
Proof.
  unfold pd.set_columns.
  destruct (List.length names =? List.length (pd.columns df))%nat; [| discriminate].
  intros H. injection H as <-. repeat split.
Qed.

Lemma set_index_labels (df df' : pd.DataFrame) (names : list PyVal) :
  pd.set_index df names = Ok df' ->
  pd.index df' = names /\ pd.columns df' = pd.columns df /\ pd.values df' = pd.values df.
Proof.
  unfold pd.set_index.
  destruct (List.length names =? List.length (pd.index df))%nat; [| discriminate].
  intros H. injection H as <-. repeat split.
Qed.

Lemma from_tuples_same (tuples names : list PyVal) :
  pd.MultiIndex_from_tuples tuples = Ok names -> names = tuples.
Proof. destruct tuples; cbn; [discriminate | congruence]. Qed.

(** What a returning [concat] went through, for each mode and axis: the table
    [pd.concat] gave, with the axis assigned. *)
Lemma concat_returned (groups : list (PyVal * pd.DataFrame))
    (fs : list (pd.DataFrame -> M pd.DataFrame)) (multiIndex sep : PyVal)
    (kwargs : Kwargs) (w w' : World) (t : pd.DataFrame)
    (self' : GroupByPipedTransforms) :
  let self := mkSelf (DataFrameGroupBy groups) fs in
  let axis := fst (dict_pop kwargs "axis" (PyInt 1)) in
  concat self multiIndex sep kwargs w = (Ok t, self', w') ->
  exists c,
    pd_concat (lazy_map (fun x => pipeline self (snd x)) groups) axis
      (snd (dict_pop kwargs "axis" (PyInt 1))) w = (Ok c, w')
    /\ self' = mkSelf (DataFrameGroupBy groups) []
    /\ (axis = PyInt 1 -> multiIndex = PyStr "join" ->
        pd.set_columns c (joined sep pd.columns groups) = Ok t)
    /\ (axis = PyInt 1 -> multiIndex = PyStr "hierarchy" ->
        pd.set_columns c (tupled pd.columns groups) = Ok t)
    /\ (axis = PyInt 0 -> multiIndex = PyStr "join" ->
        pd.set_index c (joined sep pd.index groups) = Ok t)
    /\ (axis = PyInt 0 -> multiIndex = PyStr "hierarchy" ->
        pd.set_index c (tupled pd.index groups) = Ok t).
Proof.
  intros self axis. subst self. unfold concat. fold axis. clearbody axis.
  cbn [_obj _validatePipelineObject]. unfold bind at 1. unfold lift at 1.
  unfold bind at 1.
  destruct (pd_concat _ axis _ w) as [[c | e] w1]; [| discriminate].
  unfold bind, lift, ret. intros H. exists c.
  assert (w1 = w' /\ self' = mkSelf (DataFrameGroupBy groups) []) as [-> ->].
  { revert H.
    destruct (py_eq axis (PyInt 1) && py_eq multiIndex (PyStr "join"));
      [destruct (pd.set_columns c _); [| discriminate] |];
    (destruct (py_eq axis (PyInt 1) && py_eq multiIndex (PyStr "hierarchy"));
      [destruct (rbind _ _); [| discriminate] |]);
    (destruct (py_eq axis (PyInt 0) && py_eq multiIndex (PyStr "join"));
      [destruct (pd.set_index _ _); [| discriminate] |]);
    (destruct (py_eq axis (PyInt 0) && py_eq multiIndex (PyStr "hierarchy"));
      [destruct (rbind _ _); [| discriminate] |]);
    intros H; injection H as _ <- <-; now split. }
  split; [reflexivity |]. split; [reflexivity |].
  split; [| split; [| split]]; intros -> ->; revert H; decide_branches.
  - destruct (pd.set_columns c _); [congruence | discriminate].
  - destruct (pd.MultiIndex_from_tuples _) as [names |] eqn:En;
      [| discriminate]. cbn [rbind]. apply from_tuples_same in En as ->.
    destruct (pd.set_columns c _); [congruence | discriminate].
  - destruct (pd.set_index c _); [congruence | discriminate].
  - destruct (pd.MultiIndex_from_tuples _) as [names |] eqn:En;
      [| discriminate]. cbn [rbind]. apply from_tuples_same in En as ->.
    destruct (pd.set_index c _); [congruence | discriminate].
Qed.

(** C3.  Under ['join'], whatever the separator, the pipeline and the other
    arguments are: a table that [concat] returns has, along the axis of the
    concatenation, exactly the labels [format(L) + format(sep) + format(G)],
    the f-string of the source, for each label [L] of the table of each group
    [G], group after group in the order of the iteration; these are the column
    labels for [axis=1] and the row labels for [axis=0].  And [concat] does
    return, with that axis, the table [pd.concat] gives whenever that table
    has as many labels along the axis. *)
Theorem concat_join_labels :
  forall (groups : list (PyVal * pd.DataFrame))
         (fs : list (pd.DataFrame -> M pd.DataFrame)) (sep : PyVal)
         (kwargs : Kwargs) (w : World),
    let self := mkSelf (DataFrameGroupBy groups) fs in
    let axis := fst (dict_pop kwargs "axis" (PyInt 1)) in
    let names := fun labels : pd.DataFrame -> list PyVal =>
      flat_map
        (fun G => map (fun L => PyStr (py_format L ++ py_format sep ++ py_format (fst G)))
                      (labels (snd G)))
        groups in
    (forall t self' w',
       concat self (PyStr "join") sep kwargs w = (Ok t, self', w') ->
       (axis = PyInt 1 -> pd.columns t = names pd.columns)
       /\ (axis = PyInt 0 -> pd.index t = names pd.index))
    /\ (forall c w',
          pd_concat (lazy_map (fun x => pipeline self (snd x)) groups) axis
            (snd (dict_pop kwargs "axis" (PyInt 1))) w = (Ok c, w') ->
          (axis = PyInt 1 ->
           List.length (pd.columns c) = List.length (names pd.columns) ->
           concat self (PyStr "join") sep kwargs w
           = (Ok (pd.mkDataFrame (pd.index c) (names pd.columns) (pd.values c)),
              mkSelf (DataFrameGroupBy groups) [], w'))
          /\ (axis = PyInt 0 ->
              List.length (pd.index c) = List.length (names pd.index) ->
              concat self (PyStr "join") sep kwargs w
              = (Ok (pd.mkDataFrame (names pd.index) (pd.columns c) (pd.values c)),
                 mkSelf (DataFrameGroupBy groups) [], w'))).
Proof.
  intros groups fs sep kwargs w self axis names.
  change names with (fun labels => joined sep labels groups). cbv beta. split.
  - intros t self' w' H.
    destruct (concat_returned _ _ _ _ _ _ _ _ _ H) as (c & _ & _ & H1 & _ & H0 & _).
    fold axis in H1, H0. split; intros Ha.
    + now destruct (set_columns_labels _ _ _ (H1 Ha eq_refl)).
    + now destruct (set_index_labels _ _ _ (H0 Ha eq_refl)).
  - intros c w' Hc. unfold concat. fold self axis. revert Hc. generalize axis.
    intros a Hc.
    split; intros -> Hlen; cbn [_obj self _validatePipelineObject];
      unfold bind at 1; unfold lift at 1; unfold bind at 1; rewrite Hc;
      unfold bind, lift, ret; decide_branches.
    + unfold pd.set_columns. now rewrite <- Hlen, Nat.eqb_refl.
    + unfold pd.set_index. now rewrite <- Hlen, Nat.eqb_refl.
Qed.

(** C10.  Under ['join'] and under ['hierarchy'], along the columns
    ([axis=1]) as along the rows ([axis=0]): the labels of a table that
    [concat] returns are computed from the tables the grouping yields, the
    untransformed ones, and from nothing the pipeline did.  Whatever functions
    are piped, the labels are the f-strings of the original labels, or the
    pairs of the group key and the original label. *)
Theorem concat_labels_from_untransformed_groups :
  forall (groups : list (PyVal * pd.DataFrame))
         (fs : list (pd.DataFrame -> M pd.DataFrame)) (multiIndex sep : PyVal)
         (kwargs : Kwargs) (w w' : World) (t : pd.DataFrame)
         (self' : GroupByPipedTransforms),
    let axis := fst (dict_pop kwargs "axis" (PyInt 1)) in
    axis = PyInt 1 \/ axis = PyInt 0 ->
    concat (mkSelf (DataFrameGroupBy groups) fs) multiIndex sep kwargs w
      = (Ok t, self', w') ->
    (multiIndex = PyStr "join" ->
       axis_labels axis t
       = flat_map
           (fun G => map (fun L => PyStr (py_format L ++ py_format sep
                                         ++ py_format (fst G)))
                         (axis_labels axis (snd G)))
           groups)
    /\ (multiIndex = PyStr "hierarchy" ->
        axis_labels axis t
        = flat_map (fun G => map (fun L => PyTuple (fst G) L) (axis_labels axis (snd G)))
            groups).
Proof.
  intros groups fs multiIndex sep kwargs w w' t self' axis Haxis H.
  destruct (concat_returned _ _ _ _ _ _ _ _ _ H)
    as (c & _ & _ & H1j & H1h & H0j & H0h).
  fold axis in H1j, H1h, H0j, H0h. unfold axis_labels.
  destruct Haxis as [Ha | Ha]; rewrite Ha; cbn [py_eq integer_value Z.eqb Pos.eqb];
    split; intros Hm.
  - now destruct (set_columns_labels _ _ _ (H1j Ha Hm)).
  - now destruct (set_columns_labels _ _ _ (H1h Ha Hm)).
  - now destruct (set_index_labels _ _ _ (H0j Ha Hm)).
  - now destruct (set_index_labels _ _ _ (H0h Ha Hm)).
Qed.

Lemma droplevel_tupled (labels : pd.DataFrame -> list PyVal)
    (groups : list (PyVal * pd.DataFrame)) :
  map droplevel (tupled labels groups) = flat_map (fun G => labels (snd G)) groups.
Proof.
  unfold tupled. induction groups as [| G groups IH]; cbn; [reflexivity |].
  rewrite map_app, IH, map_map. cbn. now rewrite map_id.
Qed.

(** X3.  Under ['hierarchy'], dropping the group level of the labels of a
    table that [concat] returns gives back, group after group, the labels of
    the tables the grouping yields. *)
Theorem hierarchy_droplevel :
  forall (groups : list (PyVal * pd.DataFrame))
         (fs : list (pd.DataFrame -> M pd.DataFrame)) (sep : PyVal)
         (kwargs : Kwargs) (w w' : World) (t : pd.DataFrame)
         (self' : GroupByPipedTransforms),
    let axis := fst (dict_pop kwargs "axis" (PyInt 1)) in
    axis = PyInt 1 \/ axis = PyInt 0 ->
    concat (mkSelf (DataFrameGroupBy groups) fs) (PyStr "hierarchy") sep kwargs w
      = (Ok t, self', w') ->
    map droplevel (axis_labels axis t)
    = flat_map (fun G => axis_labels axis (snd G)) groups.
Proof.
  intros groups fs sep kwargs w w' t self' axis Haxis H.
  destruct (concat_returned _ _ _ _ _ _ _ _ _ H) as (c & _ & _ & _ & H1 & _ & H0).
  fold axis in H1, H0. unfold axis_labels.
  destruct Haxis as [Ha | Ha]; rewrite Ha; cbn [py_eq integer_value Z.eqb Pos.eqb].
  - destruct (set_columns_labels _ _ _ (H1 Ha eq_refl)) as [-> _].
    apply droplevel_tupled.
  - destruct (set_index_labels _ _ _ (H0 Ha eq_refl)) as [-> _].
    apply droplevel_tupled.
Qed.

End Reassembly.

(** * The properties on examples *)

Lemma _getIdxFrom_resolves_witness :
  @_getIdxFrom small_host (PyInt 20) [PyInt 10; PyInt 20; PyInt 30] "index" = Ok (PyInt 1)
  /\ @_getIdxFrom small_host (PyStr "x") [PyInt 10; PyInt 20; PyInt 30] "index"
     = Raise (TypeError "x is not a valid index identifier.")
  /\ @_getIdxFrom small_host (PyInt 0) [Timestamp 0; Timestamp 3] "index" = Ok (PyInt 0).
Proof.
  destruct (@_getIdxFrom_resolves small_host (PyInt 20) (PyInt 10)
              [PyInt 20; PyInt 30] "index") as [Hfound _].
  destruct (@_getIdxFrom_resolves small_host (PyStr "x") (PyInt 10)
              [PyInt 20; PyInt 30] "index") as (_ & Hraise & _).
  destruct (@_getIdxFrom_resolves small_host (PyInt 0) (Timestamp 0)
              [Timestamp 3] "index") as (_ & _ & Hposition).
  split; [| split].
  - destruct (Hfound eq_refl eq_refl) as (pos & -> & [(x & Hx & Heq) Hbefore]).
    destruct pos as [| [| pos]]; [| reflexivity |].
    + cbn in Hx. injection Hx as <-. discriminate Heq.
    + discriminate (Hbefore 1%nat (PyInt 20) ltac:(lia) eq_refl).
  - exact (Hraise eq_refl (or_introl eq_refl)).
  - apply (Hposition eq_refl). right. discriminate.
Defined.

Lemma _execute_invalid_operation_witness :
  @_execute small_host group_a (PyInt 0) PyNone (PyStr "mod")
  = (Raise (ValueError
       "The provided operation to perform is not of subtract/add/multiply/divide"),
     group_a).
Proof.
  apply (@_execute_invalid_operation small_host group_a (PyInt 0) PyNone (PyStr "mod")
           (PyInt 0)); [discriminate | discriminate | discriminate | discriminate |].
  reflexivity.
Defined.

(** C9, as stated, fails on a float column with a missing value in the
    reference row.  The selector [0] resolves to position 0, the call returns,
    and the cell of row 0 is a NaN, which is not 0. *)
Lemma subtract_row0_nan :
  @_getIdxFrom small_host (PyInt 0) [PyStr "r0"; PyStr "r1"] "index" = Ok (PyInt 0)
  /\ @_execute small_host
       (pd.mkDataFrame [PyStr "r0"; PyStr "r1"] [PyStr "v"]
          [pd.FloatCol [S754_nan; f64_of_Z 1]])
       (PyInt 0) PyNone (PyStr "subtract")
     = (Ok tt,
        pd.mkDataFrame [PyStr "r0"; PyStr "r1"] [PyStr "v"]
          [pd.FloatCol [S754_nan; S754_nan]])
  /\ @pipeline small_host (subtract (mkSelf (DataFrameGroupBy []) []) (PyInt 0) PyNone)
       (pd.mkDataFrame [PyStr "r0"; PyStr "r1"] [PyStr "v"]
          [pd.FloatCol [S754_nan; f64_of_Z 1]]) O
     = (Ok (pd.mkDataFrame [PyStr "r0"; PyStr "r1"] [PyStr "v"]
              [pd.FloatCol [S754_nan; S754_nan]]),
        O)
  /\ S754_nan <> S754_zero false
  /\ S754_nan <> S754_zero true.
Proof. repeat split; discriminate. Qed.

Lemma subtract_row0_witness :
  @_execute small_host group_b (PyInt 0) PyNone (PyStr "subtract")
  = (Ok tt, pd.mkDataFrame [PyInt 0; PyInt 1] [PyStr "Value"] [pd.IntCol [0; 30]]).
Proof.
  destruct (@subtract_row0 small_host (DataFrameGroupBy []) O group_b (PyInt 0))
    as [Hrun _].
  - split; [reflexivity |]. repeat constructor.
  - reflexivity.
  - exact Hrun.
Defined.

Lemma concat_join_labels_witness :
  exists t self' w',
    @concat small_host (mkSelf (DataFrameGroupBy two_groups) []) (PyStr "join")
      (PyStr "|") [] O = (Ok t, self', w')
    /\ pd.columns t = [PyStr "Value|a"; PyStr "Value|b"].
Proof.
  destruct (@concat_join_labels small_host two_groups [] (PyStr "|") [] O)
    as [Hlabels Hreturns].
  destruct (Hreturns
              (pd.mkDataFrame [PyInt 0; PyInt 1] [PyStr "Value"; PyStr "Value"]
                 [pd.IntCol [5; 7]; pd.IntCol [10; 40]]) O eq_refl)
    as [Hrun _].
  eexists _, _, _. split; [exact (Hrun eq_refl eq_refl) |].
  exact (proj1 (Hlabels _ _ _ (Hrun eq_refl eq_refl)) eq_refl).
Defined.

(** With a pipeline that renames every column to ["renamed"], the table
    [concat] returns carries the labels of the untransformed tables. *)
Lemma concat_labels_from_untransformed_groups_witness :
  exists t self',
    @concat small_host (mkSelf (DataFrameGroupBy two_groups) [renaming])
      (PyStr "hierarchy") (PyStr "|") [] O = (Ok t, self', 2%nat)
    /\ pd.columns t
       = [PyTuple (PyStr "a") (PyStr "Value"); PyTuple (PyStr "b") (PyStr "Value")].
Proof.
  eexists _, _. split; [reflexivity |].
  exact (proj2 (@concat_labels_from_untransformed_groups small_host two_groups
                  [renaming] (PyStr "hierarchy") (PyStr "|") [] O 2%nat _ _
                  (or_introl eq_refl) eq_refl) eq_refl).
Defined.

Lemma hierarchy_droplevel_witness :
  exists t self',
    @concat small_host (mkSelf (DataFrameGroupBy two_groups) [renaming])
      (PyStr "hierarchy") (PyStr "|") [("axis", PyInt 1)] O = (Ok t, self', 2%nat)
    /\ map droplevel (pd.columns t) = [PyStr "Value"; PyStr "Value"].
Proof.
  eexists _, _. split; [reflexivity |].
  exact (@hierarchy_droplevel small_host two_groups [renaming] (PyStr "|")
           [("axis", PyInt 1)] O 2%nat _ _ (or_introl eq_refl) eq_refl).
Defined.



(** * More on the row and column operator *)

Section OperatorReference.

Context {host : Host}.

Lemma position_bound (n : nat) (z : Z) (p : nat) :
  position n z = Some p -> (p < n)%nat.
Proof.
  unfold position.
  destruct ((0 <=? z) && (z <? Z.of_nat n)) eqn:E1.
  - apply andb_true_iff in E1 as [H0 H1].
    apply Z.leb_le in H0. apply Z.ltb_lt in H1.
    intros H. injection H as <-. lia.
  - destruct ((z <? 0) && (- Z.of_nat n <=? z)) eqn:E2; [| discriminate].
    apply andb_true_iff in E2 as [H0 H1].
    apply Z.ltb_lt in H0. apply Z.leb_le in H1.
    intros H. injection H as <-. lia.
Qed.

Lemma position_outside (n : nat) (z : Z) :
  z < - Z.of_nat n \/ Z.of_nat n <= z -> position n z = None.
Proof.
  intros Hz. unfold position.
  destruct ((0 <=? z) && (z <? Z.of_nat n)) eqn:E1.
  - apply andb_true_iff in E1 as [H0 H1].
    apply Z.leb_le in H0. apply Z.ltb_lt in H1. lia.
  - destruct ((z <? 0) && (- Z.of_nat n <=? z)) eqn:E2; [| reflexivity].
    apply andb_true_iff in E2 as [H0 H1].
    apply Z.ltb_lt in H0. apply Z.leb_le in H1. lia.
Qed.

Lemma getitem_at {A : Type} (xs : list A) (z : Z) (p : nat) (d : A) :
  position (List.length xs) z = Some p -> getitem xs z = Ok (nth p xs d).
Proof.
  intros H. unfold getitem. rewrite H.
  rewrite (nth_error_nth' xs d (position_bound _ _ _ H)). reflexivity.
Qed.

Lemma with_iloc_at (op : Operator) (z : Z) (p : nat) (c : pd.Column) :
  pd.is_number c = true -> position (size c) z = Some p ->
  with_iloc op (PyInt z) c = Ok (against_row op p c).
Proof.
  destruct c as [xs | xs | xs]; cbn [pd.is_number size]; intros Hn Hp;
    try discriminate Hn; cbn [with_iloc iloc against_row].
  - now rewrite (getitem_at xs z p 0 Hp).
  - now rewrite (getitem_at xs z p S754_nan Hp).
Qed.

Lemma with_iloc_out_of_bounds (op : Operator) (z : Z) (c : pd.Column) :
  position (size c) z = None ->
  with_iloc op (PyInt z) c
  = Raise (IndexError "single positional indexer is out-of-bounds").
Proof.
  destruct c as [xs | xs | xs]; cbn [size]; intros Hp;
    cbn [with_iloc iloc]; unfold getitem; now rewrite Hp.
Qed.

(** The function [_execute] picks for a supported operation name. *)
Lemma chosen_operation (operation : PyVal) (op : Operator) (pos : PyVal) :
  named operation op ->
  (if py_eq operation (PyStr "subtract") then Ok (with_iloc op_sub pos)
   else if py_eq operation (PyStr "add") then Ok (with_iloc op_add pos)
   else if py_eq operation (PyStr "multiply") then Ok (with_iloc op_mul pos)
   else if py_eq operation (PyStr "divide") then Ok (with_iloc op_truediv pos)
   else Raise (ValueError
     "The provided operation to perform is not of subtract/add/multiply/divide"))
  = Ok (with_iloc op pos).
Proof. destruct op; cbn [named]; intros ->; reflexivity. Qed.

Lemma against_row_object (op : Operator) (p : nat) (c : pd.Column) :
  pd.is_number c = false -> against_row op p c = c.
Proof. destruct c; cbn; [discriminate | discriminate | reflexivity]. Qed.

Lemma assign_number_same (cols : list pd.Column) :
  pd.assign_number cols (filter pd.is_number cols) = cols.
Proof.
  rewrite <- (map_id (filter pd.is_number cols)), assign_number_map.
  rewrite <- (map_id cols) at 2. apply map_ext. intros c.
  now destruct (pd.is_number c).
Qed.

(** What [_execute] computes with a row selector. *)
Lemma _execute_with_row :
  forall (df : pd.DataFrame) (index operation : PyVal) (op : Operator) (z : Z)
         (p : nat),
    well_formed df ->
    named operation op ->
    _getIdxFrom index (pd.index df) "index" = Ok (PyInt z) ->
    position (List.length (pd.index df)) z = Some p ->
    _execute df index PyNone operation
    = (Ok tt,
       pd.mkDataFrame (pd.index df) (pd.columns df)
         (map (against_row op p) (pd.values df))).
Proof.
  intros df index operation op z p [_ Hwf] Hop Hpos Hp.
  unfold _execute. rewrite Hpos. cbn [rbind fst snd].
  rewrite (chosen_operation _ op _ Hop). cbn [rbind].
  unfold pd.apply, pd.loc_number.
  change (String.eqb "index" "index") with true.
  pose proof (position_bound _ _ _ Hp) as Hn.
  destruct (List.length (pd.index df)) as [| n] eqn:En; [lia |].
  cbn [Nat.eqb orb].
  rewrite Forall_forall in Hwf.
  destruct (List.length (filter pd.is_number (pd.values df)) =? 0)%nat eqn:E.
  - apply Nat.eqb_eq, length_zero_iff_nil in E. rewrite E. cbn [pd.assign_number].
    do 3 f_equal. rewrite <- E, assign_number_same.
    rewrite <- (map_id (pd.values df)) at 1. apply map_ext_in. intros c Hc.
    destruct (pd.is_number c) eqn:Ec; [| now rewrite against_row_object].
    assert (In c (filter pd.is_number (pd.values df))) as Hin
      by (apply filter_In; now split).
    rewrite E in Hin. destruct Hin.
  - rewrite (rmap_defined _ (against_row op p)).
    + do 3 f_equal. rewrite assign_number_map. apply map_ext_in. intros c Hc.
      destruct (pd.is_number c) eqn:Ec; [reflexivity | now rewrite against_row_object].
    + intros c Hc. apply filter_In in Hc as [Hc Hnum].
      apply with_iloc_at; [exact Hnum |]. now rewrite (Hwf c Hc).
Qed.

(** X4.  On a well-formed table, each of the four operations, with a row
    selector that resolves to an integer [z] denoting the row [p] (a negative
    [z] counts from the last row), returns and leaves the table with the same
    labels and every numeric cell [original[i, c]] replaced by
    [original[i, c] <op> original[p, c]] in the arithmetic of the column;
    columns that are not numeric are unchanged. *)
Theorem _execute_against_row :
  forall (df : pd.DataFrame) (index operation : PyVal) (op : Operator) (z : Z)
         (p : nat),
    well_formed df ->
    named operation op ->
    _getIdxFrom index (pd.index df) "index" = Ok (PyInt z) ->
    position (List.length (pd.index df)) z = Some p ->
    _execute df index PyNone operation
    = (Ok tt,
       pd.mkDataFrame (pd.index df) (pd.columns df)
         (map (against_row op p) (pd.values df))).
Proof.
  intros df index operation op z p Hwf Hop Hpos Hp.
  now apply _execute_with_row with (z := z).
Qed.

(** X5.  On a well-formed table that has rows and numeric columns, an
    operation with a row selector that resolves to an integer outside
    [-n .. n-1], for [n] rows, raises an [IndexError] and leaves the table as
    it was. *)
Theorem _execute_reference_out_of_bounds :
  forall (df : pd.DataFrame) (index operation : PyVal) (op : Operator) (z : Z),
    well_formed df ->
    named operation op ->
    _getIdxFrom index (pd.index df) "index" = Ok (PyInt z) ->
    pd.index df <> [] ->
    pd.loc_number df <> [] ->
    (z < - Z.of_nat (List.length (pd.index df))
     \/ Z.of_nat (List.length (pd.index df)) <= z) ->
    _execute df index PyNone operation
    = (Raise (IndexError "single positional indexer is out-of-bounds"), df).
Proof.
  intros df index operation op z [_ Hwf] Hop Hpos Hrows Hcols Hz.
  unfold _execute. rewrite Hpos. cbn [rbind fst snd].
  rewrite (chosen_operation _ op _ Hop). cbn [rbind].
  unfold pd.apply. change (String.eqb "index" "index") with true.
  destruct (pd.index df) as [| r rows] eqn:Er; [now elim Hrows |].
  destruct (pd.loc_number df) as [| c block] eqn:Eb; [now elim Hcols |].
  cbn [List.length Nat.eqb orb rmap].
  rewrite with_iloc_out_of_bounds; [reflexivity |].
  assert (In c (pd.values df)) as Hc.
  { assert (In c (pd.loc_number df)) as H by (rewrite Eb; now left).
    unfold pd.loc_number in H. now apply filter_In in H. }
  rewrite Forall_forall in Hwf. rewrite (Hwf c Hc).
  now apply position_outside.
Qed.

(** X6.  On a table without rows, or without numeric columns, a supported
    operation with a selector that resolves, on either axis and to whatever
    position, returns and leaves the table as it was: nothing is indexed. *)
Theorem _execute_on_empty :
  forall (df : pd.DataFrame) (index column operation pos : PyVal) (op : Operator),
    named operation op ->
    match column with
    | PyNone => _getIdxFrom index (pd.index df) "index"
    | _ => _getIdxFrom column (pd.select_dtypes_number df) "columns"
    end = Ok pos ->
    pd.index df = [] \/ pd.loc_number df = [] ->
    _execute df index column operation = (Ok tt, df).
Proof.
  intros df index column operation pos op Hop Hpos Hempty.
  assert (((List.length (pd.index df) =? 0) || (List.length (pd.loc_number df) =? 0))%nat
          = true) as E.
  { destruct Hempty as [-> | ->]; [reflexivity | apply orb_true_r]. }
  unfold _execute.
  destruct column; rewrite Hpos; cbn [rbind fst snd];
    rewrite (chosen_operation _ op _ Hop); cbn [rbind];
    unfold pd.apply; rewrite E; unfold pd.loc_number;
    rewrite assign_number_same; now destruct df.
Qed.

End OperatorReference.

(** * What the operator keeps *)

Section OperatorShape.

Context {host : Host}.

Lemma with_iloc_shape (op : Operator) (pos : PyVal) (x y : pd.Series) :
  with_iloc op pos x = Ok y -> pd.is_number y = true /\ size y = size x.
Proof.
  destruct x as [xs | xs | xs]; cbn [with_iloc];
    destruct (iloc xs pos) as [s0 | e]; cbn [rbind]; try discriminate;
    intros H; injection H as <-; destruct op; cbn; now rewrite length_map.
Qed.

Lemma rmap_with_iloc_sized (op : Operator) (pos : PyVal) (n : nat)
    (xs : list pd.Series) :
  forall ys,
    rmap (with_iloc op pos) xs = Ok ys ->
    Forall (fun c => size c = n) xs ->
    List.length ys = List.length xs
    /\ Forall (fun c => pd.is_number c = true /\ size c = n) ys.
Proof.
  induction xs as [| x xs IH]; intros ys H Hn; cbn in H.
  - injection H as <-. now split.
  - destruct (with_iloc op pos x) as [y |] eqn:Ey; [| discriminate]. cbn in H.
    destruct (rmap (with_iloc op pos) xs) as [ys' |]; [| discriminate]. cbn in H.
    injection H as <-. inversion Hn as [| ? ? Hx Hxs]; subst.
    destruct (IH ys' eq_refl Hxs) as [Hlen Hall].
    destruct (with_iloc_shape _ _ _ _ Ey) as [Hnum Hsize].
    split; [cbn; congruence |]. constructor; [now split | exact Hall].
Qed.

Lemma cross_shape (block : list pd.Series) (i : nat) :
  pd.is_number (pd.cross block i) = true
  /\ size (pd.cross block i) = List.length block.
Proof.
  unfold pd.cross. destruct (forallb pd.is_int block); cbn;
    now rewrite length_map.
Qed.

(** What [apply] returns for a function of [_execute], on a block of numeric
    columns of [n] cells: as many numeric columns of [n] cells. *)
Lemma apply_shape (op : Operator) (pos : PyVal) (axis : string) (n : nat)
    (block block' : list pd.Column) :
  Forall (fun c => pd.is_number c = true /\ size c = n) block ->
  pd.apply block n (with_iloc op pos) axis = Ok block' ->
  List.length block' = List.length block
  /\ Forall (fun c => pd.is_number c = true /\ size c = n) block'.
Proof.
  intros Hblock. unfold pd.apply.
  destruct ((n =? 0) || (List.length block =? 0))%nat.
  { intros H. injection H as <-. now split. }
  destruct (String.eqb axis "index").
  - intros H. apply (rmap_with_iloc_sized op pos n) in H; [exact H |].
    eapply Forall_impl; [| exact Hblock]. now intros c [_ Hc].
  - destruct (rmap (with_iloc op pos) (map (pd.cross block) (seq 0 n)))
      as [rows |] eqn:Er; [| discriminate].
    cbn [rbind]. intros H. injection H as <-.
    apply (rmap_with_iloc_sized op pos (List.length block)) in Er.
    + destruct Er as [Hlen _]. rewrite length_map, length_seq in Hlen.
      split; [now rewrite length_map, length_seq |].
      apply Forall_forall. intros c Hc. apply in_map_iff in Hc as (k & <- & _).
      destruct (cross_shape rows k) as [Hnum Hsize]. split; congruence.
    + apply Forall_forall. intros c Hc. apply in_map_iff in Hc as (k & <- & _).
      apply cross_shape.
Qed.

Lemma assign_number_shape (n : nat) (cols : list pd.Column) :
  forall block,
    List.length block = List.length (filter pd.is_number cols) ->
    Forall (fun c => pd.is_number c = true /\ size c = n) block ->
    Forall (fun c => size c = n) cols ->
    List.length (pd.assign_number cols block) = List.length cols
    /\ map pd.is_number (pd.assign_number cols block) = map pd.is_number cols
    /\ Forall (fun c => size c = n) (pd.assign_number cols block)
    /\ forall k c, nth_error cols k = Some c -> pd.is_number c = false ->
                   nth_error (pd.assign_number cols block) k = Some c.
Proof.
  induction cols as [| c cols IH]; intros block Hlen Hblock Hcols.
  - cbn. repeat split; [constructor | now intros [| k]].
  - inversion Hcols as [| ? ? Hc Hrest]; subst.
    cbn [pd.assign_number filter] in *.
    destruct (pd.is_number c) eqn:Ec.
    + destruct block as [| b block]; [discriminate Hlen |].
      inversion Hblock as [| ? ? [Hb Hbn] Hblock']; subst.
      cbn [List.length] in Hlen. injection Hlen as Hlen.
      destruct (IH block Hlen Hblock' Hrest) as (H1 & H2 & H3 & H4).
      cbn [List.length map]. rewrite H1, H2, Hb, Ec.
      split; [reflexivity |]. split; [reflexivity |].
      split; [now constructor |].
      intros [| k] c' Hk Hc'; cbn in Hk |- *.
      * injection Hk as <-. congruence.
      * now apply H4.
    + destruct (IH block Hlen Hblock Hrest) as (H1 & H2 & H3 & H4).
      cbn [List.length map]. rewrite H1, H2.
      split; [reflexivity |]. split; [reflexivity |].
      split; [now constructor |].
      intros [| k] c' Hk Hc'; cbn in Hk |- *; [exact Hk | now apply H4].
Qed.

(** X7.  Whatever the selectors and the operation are, and whether it returns
    or raises, [_execute] leaves a well-formed table well formed, with the same
    row and column labels; the columns that are not numeric keep their cells,
    the numeric ones stay numeric; and when it raises the table is exactly as
    it was. *)
Theorem _execute_keeps_shape :
  forall (df df' : pd.DataFrame) (index column operation : PyVal) (r : result unit),
    well_formed df ->
    _execute df index column operation = (r, df') ->
    pd.index df' = pd.index df
    /\ pd.columns df' = pd.columns df
    /\ well_formed df'
    /\ map pd.is_number (pd.values df') = map pd.is_number (pd.values df)
    /\ (forall k c, nth_error (pd.values df) k = Some c -> pd.is_number c = false ->
                    nth_error (pd.values df') k = Some c)
    /\ (forall e, r = Raise e -> df' = df).
Proof.
  intros df df' index column operation r Hwf. unfold _execute.
  match goal with
  | |- context [rbind ?resolved _] => destruct resolved as [[axis pos] | e]
  end; cbn [rbind fst snd].
  2: { intros H. injection H as <- <-. repeat split; try tauto; try apply Hwf. }
  assert (forall func,
            (exists op, func = with_iloc op pos) ->
            match pd.apply (pd.loc_number df) (List.length (pd.index df)) func axis with
            | Ok block =>
                (Ok tt,
                 pd.mkDataFrame (pd.index df) (pd.columns df)
                   (pd.assign_number (pd.values df) block))
            | Raise e => (Raise e, df)
            end = (r, df') ->
            pd.index df' = pd.index df
            /\ pd.columns df' = pd.columns df
            /\ well_formed df'
            /\ map pd.is_number (pd.values df') = map pd.is_number (pd.values df)
            /\ (forall k c, nth_error (pd.values df) k = Some c ->
                            pd.is_number c = false ->
                            nth_error (pd.values df') k = Some c)
            /\ (forall e, r = Raise e -> df' = df)) as Hfunc.
  { intros func [op ->].
    destruct (pd.apply _ _ _ _) as [block | e] eqn:Ea; intros H; injection H as <- <-.
    - destruct Hwf as [Hcols Hsizes].
      assert (Forall (fun c => pd.is_number c = true
                               /\ size c = List.length (pd.index df))
                (pd.loc_number df)) as Hblock.
      { apply Forall_forall. intros c Hc. apply filter_In in Hc as [Hc Hnum].
        rewrite Forall_forall in Hsizes. split; [exact Hnum | now apply Hsizes]. }
      destruct (apply_shape _ _ _ _ _ _ Hblock Ea) as [Hlen Hall].
      destruct (assign_number_shape _ _ block Hlen Hall Hsizes)
        as (H1 & H2 & H3 & H4).
      cbn [pd.index pd.columns pd.values]. unfold well_formed.
      cbn [pd.index pd.columns pd.values].
      repeat split; try assumption; try congruence.
    - repeat split; try tauto; try apply Hwf. }
  destruct (py_eq operation (PyStr "subtract")); [apply Hfunc; now exists op_sub |].
  destruct (py_eq operation (PyStr "add")); [apply Hfunc; now exists op_add |].
  destruct (py_eq operation (PyStr "multiply")); [apply Hfunc; now exists op_mul |].
  destruct (py_eq operation (PyStr "divide")); [apply Hfunc; now exists op_truediv |].
  cbn [rbind]. intros H. injection H as <- <-.
  repeat split; try tauto; try apply Hwf.
Qed.

End OperatorShape.

(** * The operator along the columns *)

Section OperatorColumns.

Context {host : Host}.

Lemma cross_int (block : list pd.Series) (i : nat) :
  forallb pd.is_int block = true ->
  pd.cross block i = pd.IntCol (map (fun c => pd.int_at c i) block).
Proof. unfold pd.cross. now intros ->. Qed.

Lemma map_seq_entries {A B : Type} (F : A -> B) (G : nat -> B) (l : list A) :
  forall s,
    (forall k c, nth_error l k = Some c -> G (s + k)%nat = F c) ->
    map G (seq s (List.length l)) = map F l.
Proof.
  induction l as [| c l IH]; intros s H; cbn; [reflexivity |].
  f_equal.
  - rewrite <- (H O c eq_refl). f_equal. lia.
  - apply IH. intros k c' Hk. rewrite <- (H (S k) c' Hk). f_equal. lia.
Qed.

Lemma nth_map_in {A : Type} (h : A -> Z) (l : list A) (k : nat) (d : A) :
  (k < List.length l)%nat -> nth k (map h l) 0 = h (nth k l d).
Proof.
  intros Hk. rewrite (nth_indep (map h l) 0 (h d)) by now rewrite length_map.
  apply map_nth.
Qed.

(** X8.  On a well-formed table with rows, whose numeric columns are all
    integer columns, ['subtract'] with a column selector that resolves to the
    integer [z], denoting the numeric column [ref], returns and leaves the
    table with the same labels and every numeric cell [original[i, c]]
    replaced by [original[i, c] - original[i, ref]] (int64, with wrap-around):
    the reference column becomes 0 in every row, and the columns that are not
    numeric are unchanged.  The row selector is ignored. *)
Theorem _execute_subtract_column :
  forall (df : pd.DataFrame) (index column : PyVal) (z : Z) (q : nat),
    well_formed df ->
    column <> PyNone ->
    forallb pd.is_int (pd.loc_number df) = true ->
    _getIdxFrom column (pd.select_dtypes_number df) "columns" = Ok (PyInt z) ->
    position (List.length (pd.loc_number df)) z = Some q ->
    pd.index df <> [] ->
    let n := List.length (pd.index df) in
    let ref := nth q (pd.loc_number df) (pd.IntCol []) in
    _execute df index column (PyStr "subtract")
    = (Ok tt,
       pd.mkDataFrame (pd.index df) (pd.columns df)
         (map (minus_column ref n) (pd.values df)))
    /\ minus_column ref n ref = pd.IntCol (map (fun _ => 0) (seq 0 n)).
Proof.
  intros df index column z q [_ Hwf] Hcol Hint Hpos Hq Hrows n ref.
  pose proof (position_bound _ _ _ Hq) as Hqn.
  assert (pd.is_number ref = true) as Href.
  { assert (In ref (pd.loc_number df)) as H by (apply nth_In; exact Hqn).
    unfold pd.loc_number in H. now apply filter_In in H. }
  split.
  2: { unfold minus_column. rewrite Href. f_equal. apply map_ext. intros i.
       now rewrite Z.sub_diag. }
  assert (rmap (with_iloc op_sub (PyInt z))
            (map (pd.cross (pd.loc_number df)) (seq 0 n))
          = Ok (map (fun i => pd.IntCol
                       (map (fun c => wrap64 (pd.int_at c i - pd.int_at ref i))
                            (pd.loc_number df)))
                  (seq 0 n))) as Hrowsrun.
  { rewrite (rmap_defined _ (against_row op_sub q)).
    - rewrite map_map. f_equal. apply map_ext. intros i.
      rewrite (cross_int _ _ Hint). cbn [against_row int_op]. rewrite map_map.
      f_equal. apply map_ext. intros c.
      now rewrite (nth_map_in _ _ _ (pd.IntCol []) Hqn).
    - intros row Hrow. apply in_map_iff in Hrow as (i & <- & _).
      destruct (cross_shape (pd.loc_number df) i) as [Hnum Hsize].
      apply with_iloc_at; [exact Hnum | now rewrite Hsize]. }
  assert (map (pd.cross
                 (map (fun i => pd.IntCol
                         (map (fun c => wrap64 (pd.int_at c i - pd.int_at ref i))
                              (pd.loc_number df)))
                    (seq 0 n)))
              (seq 0 (List.length (pd.loc_number df)))
          = map (fun c => pd.IntCol
                   (map (fun i => wrap64 (pd.int_at c i - pd.int_at ref i)) (seq 0 n)))
              (pd.loc_number df)) as Hback.
  { apply map_seq_entries. intros k c Hk. cbn [Nat.add].
    rewrite cross_int.
    - rewrite map_map. f_equal. apply map_ext. intros i. cbn [pd.int_at].
      assert (k < List.length (pd.loc_number df))%nat as Hkn
        by (apply nth_error_Some; congruence).
      rewrite (nth_map_in _ _ _ (pd.IntCol []) Hkn).
      now rewrite (nth_error_nth _ _ (pd.IntCol []) Hk).
    - apply forallb_forall. intros row Hrow.
      apply in_map_iff in Hrow as (i & <- & _). reflexivity. }
  assert (_getIdxFrom column (pd.select_dtypes_number df) "columns" = Ok (PyInt z)
          -> _execute df index column (PyStr "subtract")
             = match pd.apply (pd.loc_number df) n (with_iloc op_sub (PyInt z))
                       "columns" with
               | Ok block =>
                   (Ok tt,
                    pd.mkDataFrame (pd.index df) (pd.columns df)
                      (pd.assign_number (pd.values df) block))
               | Raise e => (Raise e, df)
               end) as Hstep.
  { intros H. unfold _execute.
    destruct column; [now elim Hcol | ..]; rewrite H; reflexivity. }
  rewrite (Hstep Hpos). unfold pd.apply.
  change (String.eqb "columns" "index") with false.
  assert (((n =? 0) || (List.length (pd.loc_number df) =? 0))%nat = false) as E.
  { apply orb_false_iff. split; apply Nat.eqb_neq.
    - subst n. destruct (pd.index df); [now elim Hrows | discriminate].
    - lia. }
  rewrite E, Hrowsrun. cbn [rbind]. rewrite Hback. do 3 f_equal.
  unfold pd.loc_number. rewrite assign_number_map. apply map_ext. intros c.
  unfold minus_column. now destruct (pd.is_number c).
Qed.

End OperatorColumns.

(** * More on the axis resolver *)

Section ResolverOutcomes.

Context {host : Host}.

Lemma not_contained_in_nothing (idx : PyVal) : axis_contains idx [] = false.
Proof. unfold axis_contains. cbn. now destruct idx. Qed.

(** X9.  Whatever the selector and the axis values are, the list also being
    empty: [_getIdxFrom] raises nothing but the [TypeError] that names the
    selector, and only for a selector that is not an integer; an integer
    selector always resolves; and what is returned is either the selector
    itself, then an integer, or the first position of an entry equal to the
    selector, hence a position inside the axis.  The last [else] of the source
    and a failure of [list.index] are never reached. *)
Theorem _getIdxFrom_outcomes :
  forall (idx : PyVal) (idxList : list PyVal) (axis : string),
    (forall e, _getIdxFrom idx idxList axis = Raise e ->
       isinstance_int idx = false
       /\ e = TypeError
                (py_format idx ++ " is not a valid "
                 ++ (if String.eqb axis "index" then "index" else "columns")
                 ++ " identifier."))
    /\ (forall v, _getIdxFrom idx idxList axis = Ok v ->
          (v = idx /\ isinstance_int idx = true)
          \/ exists pos, v = PyInt (Z.of_nat pos)
                         /\ (pos < List.length idxList)%nat
                         /\ first_match idxList idx pos)
    /\ (isinstance_int idx = true -> exists v, _getIdxFrom idx idxList axis = Ok v).
Proof.
  intros idx idxList axis.
  assert (forall found : bool,
            found = false ->
            (if found then
               match list_index idxList idx with
               | Some pos => Ok (PyInt (Z.of_nat pos))
               | None => Raise (ValueError "value is not in list")
               end
             else if negb (isinstance_int idx) then
               Raise (TypeError
                 (py_format idx ++ " is not a valid "
                  ++ (if String.eqb axis "index" then "index" else "columns")
                  ++ " identifier."))
             else if isinstance_int idx then Ok idx
             else Raise (ValueError "An error occured when retrieving the index."))
            = if isinstance_int idx then Ok idx
              else Raise (TypeError
                 (py_format idx ++ " is not a valid "
                  ++ (if String.eqb axis "index" then "index" else "columns")
                  ++ " identifier."))) as Hmiss.
  { intros found ->. now destruct (isinstance_int idx). }
  assert (_getIdxFrom idx idxList axis
          = (if isinstance_int idx then Ok idx
             else Raise (TypeError
                (py_format idx ++ " is not a valid "
                 ++ (if String.eqb axis "index" then "index" else "columns")
                 ++ " identifier.")))
          \/ exists pos, _getIdxFrom idx idxList axis = Ok (PyInt (Z.of_nat pos))
                         /\ first_match idxList idx pos) as Hcases.
  { unfold _getIdxFrom.
    destruct (axis_contains idx idxList) eqn:Hin.
    - destruct idxList as [| first rest];
        [now rewrite not_contained_in_nothing in Hin |].
      rewrite getitem_first. cbn [rbind].
      destruct (PyType_eqb (type idx) (type first)) eqn:Ht.
      + right. apply PyType_eqb_eq in Ht.
        destruct (list_index_found _ _ (contained_same_type _ _ _ Hin Ht))
          as [pos Hpos].
        exists pos. rewrite Hpos. split; [reflexivity |].
        now apply list_index_first_match.
      + left. exact (Hmiss false eq_refl).
    - left. cbn [rbind]. exact (Hmiss false eq_refl). }
  split; [| split].
  - intros e He. destruct Hcases as [H | (pos & H & _)]; rewrite H in He.
    + destruct (isinstance_int idx); [discriminate |]. injection He as <-. now split.
    + discriminate.
  - intros v Hv. destruct Hcases as [H | (pos & H & Hfirst)]; rewrite H in Hv.
    + destruct (isinstance_int idx); [| discriminate]. injection Hv as <-.
      left. now split.
    + injection Hv as <-. right. exists pos. split; [reflexivity |].
      split; [| exact Hfirst].
      destruct Hfirst as [(x & Hx & _) _]. apply nth_error_Some. congruence.
  - intros Hint. destruct Hcases as [H | (pos & H & _)]; rewrite H.
    + rewrite Hint. now eexists.
    + now eexists.
Qed.

(** X10.  A selector that is not an integer and that the axis does not
    contain makes [_execute] raise the [TypeError] that names it, whatever the
    operation is, supported or not, and leaves the table as it was.  The row
    selector is looked up among the row labels; a column selector among the
    labels of the numeric columns only, so the label of a column that is not
    numeric is refused as well. *)
Theorem _execute_unknown_label :
  forall (df : pd.DataFrame) (index column operation : PyVal),
    (column = PyNone ->
     isinstance_int index = false ->
     axis_contains index (pd.index df) = false ->
     _execute df index column operation
     = (Raise (TypeError (py_format index ++ " is not a valid index identifier.")),
        df))
    /\ (column <> PyNone ->
        isinstance_int column = false ->
        axis_contains column (pd.select_dtypes_number df) = false ->
        _execute df index column operation
        = (Raise (TypeError
                    (py_format column ++ " is not a valid columns identifier.")),
           df)).
Proof.
  intros df index column operation. split.
  - intros -> Hint Hin. unfold _execute, _getIdxFrom. rewrite Hin. cbn [rbind].
    now rewrite Hint.
  - intros Hcol Hint Hin. unfold _execute, _getIdxFrom.
    destruct column; [now elim Hcol | ..]; rewrite Hin; cbn [rbind];
      try discriminate Hint; reflexivity.
Qed.

End ResolverOutcomes.

(** * Extending a pipeline *)

Section PipelineExtension.

Context {host : Host}.

(** X11.  Functions piped later run after the ones already registered, on
    their result and in the world they leave; and when a registered function
    raises, the pipeline raises the same exception in the same world: no
    function registered after it runs. *)
Theorem pipe_extends_pipeline :
  forall (self : GroupByPipedTransforms)
         (functions : list (pd.DataFrame -> M pd.DataFrame))
         (x : pd.DataFrame) (w : World),
    match pipeline self x w with
    | (Ok y, w') => pipeline (pipe self functions) x w = _pipe functions y w'
    | (Raise e, w') => pipeline (pipe self functions) x w = (Raise e, w')
    end.
Proof.
  intros self functions x w. unfold pipeline, pipe. cbn [_pipedFunctions].
  rewrite _pipe_app. unfold bind.
  now destruct (_pipe (_pipedFunctions self) x w) as [[y | e] w'].
Qed.

End PipelineExtension.

(** * Grouping *)

Section Grouping.

Context {host : Host} {grouper : Grouper}.

(** X1.  When [groupby] returns, the instance wraps a grouping and its
    pipeline is the one it had; from then on [groupby] changes nothing,
    whatever grouper and arguments it is given: a second grouping by another
    key is ignored without an error. *)
Theorem groupby_settles :
  forall (self self1 : GroupByPipedTransforms) (by1 : PyVal) (args1 : Kwargs),
    groupby self by1 args1 = Ok self1 ->
    (exists groups, _obj self1 = DataFrameGroupBy groups)
    /\ _pipedFunctions self1 = _pipedFunctions self
    /\ forall (by2 : PyVal) (args2 : Kwargs), groupby self1 by2 args2 = Ok self1.
Proof.
  intros [obj fs] self1 by1 args1. unfold groupby. cbn [_obj _pipedFunctions].
  destruct obj as [df | groups].
  - destruct (pd_groupby df by1 args1) as [groups | e]; [| discriminate].
    cbn [rbind]. intros H. injection H as <-. cbn. repeat split. now exists groups.
  - intros H. injection H as <-. cbn. repeat split. now exists groups.
Qed.

End Grouping.

(** * More on reassembly *)

Section ReassemblyEdges.

Context {host : Host}.

Ltac decide_tests :=
  rewrite ?axis_1_is_1, ?axis_1_is_not_0, ?axis_0_is_0, ?axis_0_is_not_1,
    ?join_is_join, ?join_is_not_hierarchy;
  cbn [andb].

Lemma joined_length (sep : PyVal) (labels : pd.DataFrame -> list PyVal)
    (groups : list (PyVal * pd.DataFrame)) :
  List.length (joined sep labels groups)
  = list_sum (map (fun G => List.length (labels (snd G))) groups).
Proof.
  unfold joined. induction groups as [| G groups IH]; cbn; [reflexivity |].
  now rewrite length_app, length_map, IH.
Qed.

(** X12.  [concat] assigns labels only for [axis] equal to [1] or [0] and
    [multiIndex] equal to ['join'] or ['hierarchy'].  With any other mode
    ([False], [None], another string), or with the axis given by name
    (['columns'], ['index']), it returns the table of [pd.concat] as it is,
    and clears the pipeline; and it raises what [pd.concat] raises. *)
Theorem concat_without_labels :
  forall (groups : list (PyVal * pd.DataFrame))
         (fs : list (pd.DataFrame -> M pd.DataFrame)) (multiIndex sep : PyVal)
         (kwargs : Kwargs) (w : World),
    let self := mkSelf (DataFrameGroupBy groups) fs in
    let axis := fst (dict_pop kwargs "axis" (PyInt 1)) in
    (py_eq multiIndex (PyStr "join") = false
     /\ py_eq multiIndex (PyStr "hierarchy") = false)
    \/ (py_eq axis (PyInt 1) = false /\ py_eq axis (PyInt 0) = false) ->
    concat self multiIndex sep kwargs w
    = match pd_concat (lazy_map (fun x => pipeline self (snd x)) groups) axis
              (snd (dict_pop kwargs "axis" (PyInt 1))) w with
      | (Ok c, w') => (Ok c, mkSelf (DataFrameGroupBy groups) [], w')
      | (Raise e, w') => (Raise e, self, w')
      end.
Proof.
  intros groups fs multiIndex sep kwargs w self axis H.
  unfold concat. fold axis. cbn [_obj self _validatePipelineObject].
  unfold bind at 1. unfold lift at 1. unfold bind at 1.
  destruct (pd_concat _ axis _ w) as [[c | e] w1]; [| reflexivity].
  unfold bind, lift, ret.
  destruct H as [[-> ->] | [-> ->]]; rewrite ?andb_false_r; cbn [andb];
    reflexivity.
Qed.

(** X13.  Under ['join'], [concat] assigns as many labels as the tables of the
    grouping have along the axis, all groups together.  When the table that
    [pd.concat] gives has another number of labels there, as after a piped
    function that drops or adds a column, [concat] raises a [ValueError] and
    the pipeline is not cleared. *)
Theorem concat_join_length_mismatch :
  forall (groups : list (PyVal * pd.DataFrame))
         (fs : list (pd.DataFrame -> M pd.DataFrame)) (sep : PyVal)
         (kwargs : Kwargs) (w w' : World) (c : pd.DataFrame),
    let self := mkSelf (DataFrameGroupBy groups) fs in
    let axis := fst (dict_pop kwargs "axis" (PyInt 1)) in
    pd_concat (lazy_map (fun x => pipeline self (snd x)) groups) axis
      (snd (dict_pop kwargs "axis" (PyInt 1))) w = (Ok c, w') ->
    (axis = PyInt 1 ->
     List.length (pd.columns c)
     <> list_sum (map (fun G => List.length (pd.columns (snd G))) groups) ->
     concat self (PyStr "join") sep kwargs w
     = (Raise (ValueError "Length mismatch"), self, w'))
    /\ (axis = PyInt 0 ->
        List.length (pd.index c)
        <> list_sum (map (fun G => List.length (pd.index (snd G))) groups) ->
        concat self (PyStr "join") sep kwargs w
        = (Raise (ValueError "Length mismatch"), self, w')).
Proof.
  intros groups fs sep kwargs w w' c self axis Hc.
  unfold concat. fold axis. revert Hc. generalize axis. intros a Hc.
  split; intros -> Hlen; cbn [_obj self _validatePipelineObject];
    unfold bind at 1; unfold lift at 1; unfold bind at 1; fold self; rewrite Hc;
    unfold bind, lift, ret; decide_tests.
  - unfold pd.set_columns. rewrite joined_length.
    destruct (Nat.eqb_spec
                (list_sum (map (fun G => List.length (pd.columns (snd G))) groups))
                (List.length (pd.columns c))) as [E | E]; [| reflexivity].
    now elim Hlen.
  - unfold pd.set_index. rewrite joined_length.
    destruct (Nat.eqb_spec
                (list_sum (map (fun G => List.length (pd.index (snd G))) groups))
                (List.length (pd.index c))) as [E | E]; [| reflexivity].
    now elim Hlen.
Qed.

End ReassemblyEdges.

(** * Export *)

Section Exporting.

Context {host : Host} {exporter : Exporter}.

Lemma skipn_at {A : Type} (xs : list A) (i : nat) (d : A) :
  nth_error xs i = Some d -> skipn i xs = d :: skipn (S i) xs.
Proof.
  revert i. induction xs as [| x xs IH]; intros [| i] H; cbn in H;
    try discriminate.
  - now injection H as <-.
  - cbn [skipn]. now apply IH.
Qed.

Lemma add_row_labels_from (isIndexTimeType : bool) (rowIndicesFieldName : PyVal)
    (labels : list PyVal) :
  forall (records : list PyDict) (i : nat),
    (i + List.length labels = List.length records)%nat ->
    add_row_labels records i labels isIndexTimeType rowIndicesFieldName
    = Ok (firstn i records
          ++ map (fun dl => dict_setitem (fst dl) rowIndicesFieldName
                              (PyStr (row_label_text isIndexTimeType (snd dl))))
                 (combine (skipn i records) labels)).
Proof.
  unfold PyDict in *.
  induction labels as [| label labels IH]; intros records i Hlen.
  - cbn [add_row_labels]. rewrite combine_nil. cbn [map].
    rewrite app_nil_r, firstn_all2; [reflexivity |].
    unfold PyDict in *. cbn in Hlen. lia.
  - cbn [add_row_labels List.length] in *. unfold PyDict in *.
    destruct (nth_error records i) as [d |] eqn:Ed.
    2: { apply nth_error_None in Ed. lia. }
    rewrite IH.
    + rewrite (skipn_at _ _ _ Ed). cbn [combine map fst snd].
      assert (List.length (firstn i records) = i) as Hi
        by (rewrite length_firstn; lia).
      rewrite firstn_app, skipn_app, Hi.
      replace (S i - i)%nat with 1%nat by lia.
      rewrite (@firstn_all2 _ (S i) (firstn i records)) by lia.
      rewrite (@skipn_all2 _ (S i) (firstn i records)) by lia.
      cbn [firstn skipn app]. rewrite <- app_assoc. reflexivity.
    + rewrite length_app, length_firstn. cbn [List.length].
      rewrite length_skipn. lia.
Qed.

(** X14.  With one record per row, as [to_dict] gives them, the loop of
    [toJSON] sets in the record of each row the field [rowIndicesFieldName] to
    the text of the row's label ([isoformat] on a time axis, the f-string
    otherwise), and changes nothing else: the field comes last in a record
    that has no column of that name, and takes the place and the value of a
    column of that name otherwise.  With fewer records than rows the loop
    raises an [IndexError]. *)
Theorem add_row_labels_one_per_row :
  forall (records : list PyDict) (labels : list PyVal) (rowIndicesFieldName : PyVal),
    (List.length records = List.length labels ->
     add_row_labels records 0 labels (is_datetime64 labels) rowIndicesFieldName
     = Ok (map (fun dl => dict_setitem (fst dl) rowIndicesFieldName
                            (PyStr (row_label_text (is_datetime64 labels) (snd dl))))
               (combine records labels)))
    /\ (forall d value,
          existsb (fun kv => py_eq (fst kv) rowIndicesFieldName) d = false ->
          dict_setitem d rowIndicesFieldName value = d ++ [(rowIndicesFieldName, value)])
    /\ (forall before k old after value,
          existsb (fun kv => py_eq (fst kv) rowIndicesFieldName) before = false ->
          py_eq k rowIndicesFieldName = true ->
          dict_setitem (before ++ (k, old) :: after) rowIndicesFieldName value
          = before ++ (k, value) :: after)
    /\ ((List.length records < List.length labels)%nat ->
        add_row_labels records 0 labels (is_datetime64 labels) rowIndicesFieldName
        = Raise (IndexError "list index out of range")).
Proof.
  intros records labels rowIndicesFieldName.
  generalize (is_datetime64 labels). intros isIndexTimeType.
  unfold PyDict in *.
  split; [| split; [| split]].
  - intros Hlen. rewrite add_row_labels_from by (symmetry; exact Hlen).
    reflexivity.
  - induction d as [| [k v] d IH]; intros value H; cbn in *; [reflexivity |].
    apply orb_false_iff in H as [-> H]. now rewrite IH.
  - induction before as [| [k0 v0] before IH]; intros k old after value H Hk;
      cbn in *.
    + now rewrite Hk.
    + apply orb_false_iff in H as [-> H]. now rewrite IH.
  - assert (forall (ls : list PyVal) (rs : list PyDict) (i : nat),
              List.length rs = List.length records ->
              (List.length records < i + List.length ls)%nat ->
              (i <= List.length records)%nat ->
              add_row_labels rs i ls isIndexTimeType rowIndicesFieldName
              = Raise (IndexError "list index out of range")) as Hshort.
    { induction ls as [| l ls IH]; intros rs i Hrs Hlt Hi; cbn in Hlt; [lia |].
      cbn [add_row_labels]. unfold PyDict in *.
      destruct (nth_error rs i) as [d |] eqn:Ed; [| reflexivity].
      assert (i < List.length rs)%nat as Hin by (apply nth_error_Some; congruence).
      apply IH; [| lia | lia].
      rewrite length_app, length_firstn. cbn [List.length].
      rewrite length_skipn. lia. }
    intros Hlt. apply Hshort; [reflexivity | cbn; lia | lia].
Qed.

Lemma concat_instance (self self' : GroupByPipedTransforms) (multiIndex sep : PyVal)
    (kwargs : Kwargs) (w w' : World) (r : result pd.DataFrame) :
  concat self multiIndex sep kwargs w = (r, self', w') ->
  match r with
  | Ok _ => self' = mkSelf (_obj self) []
  | Raise _ => self' = self
  end.
Proof.
  unfold concat.
  match goal with
  | |- context [match ?body w with _ => _ end] => destruct (body w) as [[c | e] w1]
  end; intros H; injection H as <- <- <-; reflexivity.
Qed.

(** X15.  [toJSON] reassembles first.  When the reassembly raises, [toJSON]
    raises the same exception and the instance is as it was.  When the
    reassembly returns, the pipeline is cleared from then on: it stays
    cleared when adding the row labels, opening the file, serializing or
    writing raises afterwards. *)
Theorem toJSON_clears_pipeline_before_export :
  forall (self self' : GroupByPipedTransforms)
         (fileName rowIndicesFieldName addMultiIndexWithSep : PyVal)
         (kwargs : Kwargs) (w w' : World) (r : result unit),
    toJSON self fileName rowIndicesFieldName addMultiIndexWithSep kwargs w
      = (r, self', w') ->
    match concat self
            (if truthy addMultiIndexWithSep then PyStr "join" else PyBool false)
            addMultiIndexWithSep kwargs w with
    | (Ok _, _, _) => _obj self' = _obj self /\ _pipedFunctions self' = []
    | (Raise e, _, w1) => r = Raise e /\ self' = self /\ w' = w1
    end.
Proof.
  intros self self' fileName rowIndicesFieldName addMultiIndexWithSep kwargs w w' r.
  unfold toJSON.
  destruct (concat self _ addMultiIndexWithSep kwargs w) as [[[t | e] s1] w1] eqn:Ec;
    apply concat_instance in Ec.
  - match goal with
    | |- context [match ?rest w1 with _ => _ end] => destruct (rest w1) as [r2 w2]
    end.
    intros H. injection H as <- <- <-. subst s1. now split.
  - intros H. injection H as <- <- <-. now subst s1.
Qed.

(** X16.  [toJSON] opens the destination before it serializes.  When the
    reassembly returns, the row labels are added (or not asked for) and the
    destination opens, a failure of [json.dumps] is raised by [toJSON] in the
    world that opening left, with the pipeline cleared and nothing written;
    when [json.dumps] returns the text [t], the text written is
    [{"data": t}], and [toJSON] ends as the write does. *)
Theorem toJSON_opens_before_serializing :
  forall (self self1 : GroupByPipedTransforms)
         (fileName rowIndicesFieldName addMultiIndexWithSep : PyVal)
         (kwargs : Kwargs) (w w1 w2 : World) (concatenated : pd.DataFrame)
         (records : list PyDict),
    concat self
      (if truthy addMultiIndexWithSep then PyStr "join" else PyBool false)
      addMultiIndexWithSep kwargs w = (Ok concatenated, self1, w1) ->
    (if truthy rowIndicesFieldName then
       add_row_labels (to_dict_records concatenated) 0 (pd.index concatenated)
         (is_datetime64 (pd.index concatenated)) rowIndicesFieldName
     else Ok (to_dict_records concatenated)) = Ok records ->
    open_w fileName w1 = (Ok tt, w2) ->
    toJSON self fileName rowIndicesFieldName addMultiIndexWithSep kwargs w
    = match json_dumps records with
      | Raise e => (Raise e, mkSelf (_obj self) [], w2)
      | Ok text =>
          (fst (f_write fileName
                  ("{" ++ quote ++ "data" ++ quote ++ ": " ++ text ++ "}")%string w2),
           mkSelf (_obj self) [],
           snd (f_write fileName
                  ("{" ++ quote ++ "data" ++ quote ++ ": " ++ text ++ "}")%string w2))
      end.
Proof.
  intros self self1 fileName rowIndicesFieldName addMultiIndexWithSep kwargs
    w w1 w2 concatenated records Hc Hlabels Hopen.
  pose proof (concat_instance _ _ _ _ _ _ _ _ Hc) as Hself. cbn in Hself.
  unfold toJSON. rewrite Hc, Hlabels. unfold bind at 1. unfold lift at 1.
  unfold bind at 1. rewrite Hopen. unfold bind, lift. subst self1.
  destruct (json_dumps records) as [text | e]; [| reflexivity].
  now destruct (f_write fileName _ w2).
Qed.

End Exporting.

(** * Running a step twice *)

Section OperatorTwice.

Context {host : Host}.

Lemma wrap64_wrap64 (z : Z) : wrap64 (wrap64 z) = wrap64 z.
Proof.
  unfold wrap64. replace ((z + 2 ^ 63) mod 2 ^ 64 - 2 ^ 63 + 2 ^ 63)
    with ((z + 2 ^ 63) mod 2 ^ 64) by lia.
  now rewrite Z.mod_mod by lia.
Qed.

(** IEEE 754: [x - (+0)] is [x]. *)
Lemma f64_sub_zero (x : float64) : f64_sub x (S754_zero false) = x.
Proof. destruct x as [[|] | [|] | | s m e]; reflexivity. Qed.

Lemma against_row_size (op : Operator) (p : nat) (c : pd.Column) :
  size (against_row op p c) = size c.
Proof.
  destruct c as [xs | xs | xs]; destruct op; cbn; now rewrite ?length_map.
Qed.

Lemma against_row_twice (p : nat) (c : pd.Column) :
  (p < size c)%nat -> finite_at p c = true ->
  against_row op_sub p (against_row op_sub p c) = against_row op_sub p c.
Proof.
  destruct c as [xs | xs | xs]; cbn [size finite_at against_row int_op float_op];
    intros Hp Hfin; [| | reflexivity]; f_equal; rewrite map_map.
  - apply map_ext. intros v.
    rewrite (nth_indep (map (fun v => wrap64 (v - nth p xs 0)) xs) 0
               (wrap64 (0 - nth p xs 0))) by (now rewrite length_map).
    rewrite (map_nth (fun v => wrap64 (v - nth p xs 0))).
    now rewrite wrap64_diag, Z.sub_0_r, wrap64_wrap64.
  - apply map_ext. intros v.
    rewrite (nth_indep (map (fun v => f64_sub v (nth p xs S754_nan)) xs) S754_nan
               (f64_sub S754_nan (nth p xs S754_nan))) by (now rewrite length_map).
    rewrite (map_nth (fun v => f64_sub v (nth p xs S754_nan))).
    now rewrite f64_sub_diag, Hfin, f64_sub_zero.
Qed.

(** X17.  Subtracting a row twice is subtracting it once.  On a well-formed
    table whose float columns hold a finite cell in the reference row,
    ['subtract'] with a row selector returns, and run again with the same
    selector on the table it left, returns and leaves that table as it is:
    the reference row holds zeros after the first run. *)
Theorem _execute_subtract_twice :
  forall (df : pd.DataFrame) (index : PyVal) (z : Z) (p : nat),
    well_formed df ->
    _getIdxFrom index (pd.index df) "index" = Ok (PyInt z) ->
    position (List.length (pd.index df)) z = Some p ->
    forallb (finite_at p) (pd.values df) = true ->
    let once := snd (_execute df index PyNone (PyStr "subtract")) in
    _execute df index PyNone (PyStr "subtract") = (Ok tt, once)
    /\ _execute once index PyNone (PyStr "subtract") = (Ok tt, once).
Proof.
  intros df index z p Hwf Hpos Hp Hfin once. subst once.
  rewrite (_execute_with_row df index _ op_sub z p Hwf eq_refl Hpos Hp).
  cbn [snd]. split; [reflexivity |].
  destruct Hwf as [Hcols Hsizes]. rewrite Forall_forall in Hsizes.
  rewrite (_execute_with_row _ index _ op_sub z p).
  - cbn [pd.index pd.columns pd.values]. do 2 f_equal.
    rewrite map_map. apply map_ext_in. intros c Hc.
    apply against_row_twice.
    + rewrite (Hsizes c Hc). now apply position_bound with (z := z).
    + rewrite forallb_forall in Hfin. now apply Hfin.
  - split; cbn [pd.index pd.columns pd.values].
    + now rewrite length_map.
    + apply Forall_forall. intros c Hc. apply in_map_iff in Hc as (c0 & <- & Hc0).
      rewrite against_row_size. now apply Hsizes.
  - reflexivity.
  - exact Hpos.
  - exact Hp.
Qed.

End OperatorTwice.

Section NormalizerTwice.

Context {host : Host}.







Lemma rmap_length {A B : Type} (f : A -> result B) (xs : list A) (ys : list B) :
  rmap f xs = Ok ys -> List.length ys = List.length xs.
Proof. intros H. now destruct (rmap_entries f xs ys H). Qed.





End NormalizerTwice.

(** * Building and renaming *)

(** X20.  Renaming keeps the row labels and the cells, and the table well
    formed; the last name given wins, also over the name a [Series] was
    converted with; a table that has not exactly one column is returned as it
    is. *)
Theorem _rename_last_name_wins :
  forall (obj : pd.DataFrame) (a b : PyVal),
    _rename (_rename obj a) b = _rename obj b
    /\ (forall index cells,
          _rename (_convertToDataFrame (a_Series index cells) a) b
          = _convertToDataFrame (a_Series index cells) b)
    /\ pd.index (_rename obj a) = pd.index obj
    /\ pd.values (_rename obj a) = pd.values obj
    /\ (well_formed obj -> well_formed (_rename obj a))
    /\ (List.length (pd.columns obj) <> 1%nat -> _rename obj a = obj).
Proof.
  intros obj a b.
  split; [| split; [intros index cells; reflexivity |]];
    unfold _rename, well_formed;
    destruct (Nat.eqb_spec (List.length (pd.columns obj)) 1) as [E | E];
    cbn [pd.index pd.columns pd.values List.length Nat.eqb];
    rewrite ?(proj2 (Nat.eqb_neq _ _) E); try reflexivity.
  - split; [reflexivity |]. split; [reflexivity |].
    split; [| intros H; now elim H].
    intros [H1 H2]. split; [congruence | exact H2].
  - split; [reflexivity |]. split; [reflexivity |]. split; [tauto | reflexivity].
Qed.

Section Building.

Context {host : Host}.

(** X21.  Building the accessor raises an [AttributeError] for an object
    that is neither a [DataFrame] nor a [Series], and for nothing else.  The
    instance built has an empty pipeline and wraps a table, not a grouping:
    the given table, or for a [Series] the table of its cells under the one
    column ["Value"] and the same row labels; the table is well formed when
    the data are. *)
Theorem __init___wraps_a_table :
  forall pandas_obj : PyObject,
    match __init__ pandas_obj with
    | Built self =>
        _pipedFunctions self = []
        /\ exists data df,
             pandas_obj = pandas data
             /\ _obj self = DataFrame df
             /\ (valid data -> well_formed df)
             /\ (forall index cells, data = a_Series index cells ->
                   df = pd.mkDataFrame index [PyStr "Value"] [cells])
             /\ (forall t, data = a_DataFrame t -> df = t)
    | AttributeError msg =>
        pandas_obj = other
        /\ msg = "The object must be a pandas DataFrame or Series."%string
    end.
Proof.
  intros [data |]; cbn; [| now split].
  split; [reflexivity |]. exists data, (_convertToDataFrame data (PyStr "Value")).
  split; [reflexivity |]. split; [reflexivity |]. split; [| split].
  - destruct data as [index cells | t]; cbn; [| tauto].
    intros H. split; [reflexivity |]. now repeat constructor.
  - now intros index cells ->.
  - now intros t ->.
Qed.

End Building.

(** * The further properties on examples *)

Lemma groupby_settles_witness :
  @groupby small_host by_row_label (mkSelf (DataFrame group_a) [renaming]) (PyStr "k") []
  = Ok (mkSelf
          (DataFrameGroupBy
             [(PyInt 0, pd.mkDataFrame [PyInt 0] [PyStr "Value"] [pd.IntCol [5]]);
              (PyInt 1, pd.mkDataFrame [PyInt 1] [PyStr "Value"] [pd.IntCol [7]])])
          [renaming])
  /\ @groupby small_host by_row_label
       (mkSelf
          (DataFrameGroupBy
             [(PyInt 0, pd.mkDataFrame [PyInt 0] [PyStr "Value"] [pd.IntCol [5]]);
              (PyInt 1, pd.mkDataFrame [PyInt 1] [PyStr "Value"] [pd.IntCol [7]])])
          [renaming])
       (PyStr "other") []
     = Ok (mkSelf
             (DataFrameGroupBy
                [(PyInt 0, pd.mkDataFrame [PyInt 0] [PyStr "Value"] [pd.IntCol [5]]);
                 (PyInt 1, pd.mkDataFrame [PyInt 1] [PyStr "Value"] [pd.IntCol [7]])])
             [renaming]).
Proof.
  split; [reflexivity |].
  exact (proj2 (proj2 (@groupby_settles small_host by_row_label
                         (mkSelf (DataFrame group_a) [renaming]) _ (PyStr "k") []
                         eq_refl))
           (PyStr "other") []).
Defined.

(** The last row as the reference, by a negative position. *)
Lemma _execute_against_row_witness :
  @_execute small_host group_b (PyInt (-1)) PyNone (PyStr "add")
  = (Ok tt, pd.mkDataFrame [PyInt 0; PyInt 1] [PyStr "Value"] [pd.IntCol [50; 80]]).
Proof.
  apply (@_execute_against_row small_host group_b (PyInt (-1)) (PyStr "add") op_add
           (-1) 1%nat).
  - split; [reflexivity |]. repeat constructor.
  - reflexivity.
  - reflexivity.
  - reflexivity.
Defined.

Lemma _execute_reference_out_of_bounds_witness :
  @_execute small_host group_a (PyInt 2) PyNone (PyStr "multiply")
  = (Raise (IndexError "single positional indexer is out-of-bounds"), group_a).
Proof.
  apply (@_execute_reference_out_of_bounds small_host group_a (PyInt 2)
           (PyStr "multiply") op_mul 2).
  - split; [reflexivity |]. repeat constructor.
  - reflexivity.
  - reflexivity.
  - discriminate.
  - vm_compute. discriminate.
  - right. cbn. lia.
Defined.

(** A table without numeric columns: the position [5] is never used. *)
Lemma _execute_on_empty_witness :
  @_execute small_host group_t (PyInt 5) PyNone (PyStr "divide") = (Ok tt, group_t).
Proof.
  apply (@_execute_on_empty small_host group_t (PyInt 5) PyNone (PyStr "divide")
           (PyInt 5) op_truediv).
  - reflexivity.
  - reflexivity.
  - right. reflexivity.
Defined.

(** Dividing by the first row turns the integer column into a float column,
    and keeps the labels and the text column. *)
Lemma _execute_keeps_shape_witness :
  pd.columns (snd (@_execute small_host mixed_table (PyInt 0) PyNone (PyStr "divide")))
  = [PyStr "a"; PyStr "b"; PyStr "c"]
  /\ nth_error
       (pd.values (snd (@_execute small_host mixed_table (PyInt 0) PyNone
                          (PyStr "divide"))))
       2
     = Some (pd.ObjCol [PyStr "u"; PyStr "v"]).
Proof.
  destruct (@_execute_keeps_shape small_host mixed_table
              (snd (@_execute small_host mixed_table (PyInt 0) PyNone (PyStr "divide")))
              (PyInt 0) PyNone (PyStr "divide")
              (fst (@_execute small_host mixed_table (PyInt 0) PyNone (PyStr "divide"))))
    as (_ & Hcols & _ & _ & Hobj & _).
  - split; [reflexivity |]. repeat constructor.
  - apply surjective_pairing.
  - split; [exact Hcols |].
    exact (Hobj 2%nat (pd.ObjCol [PyStr "u"; PyStr "v"]) eq_refl eq_refl).
Defined.

Lemma _execute_subtract_column_witness :
  @_execute small_host two_columns (PyInt 0) (PyStr "b") (PyStr "subtract")
  = (Ok tt,
     pd.mkDataFrame [PyInt 0; PyInt 1] [PyStr "a"; PyStr "b"]
       [pd.IntCol [-5; -33]; pd.IntCol [0; 0]]).
Proof.
  refine (proj1 (@_execute_subtract_column small_host two_columns (PyInt 0) (PyStr "b")
                   1 1%nat _ _ eq_refl eq_refl eq_refl _)).
  - split; [reflexivity |]. repeat constructor.
  - discriminate.
  - discriminate.
Defined.

Lemma _execute_unknown_label_witness :
  @_execute small_host group_a (PyStr "x") PyNone (PyStr "mod")
  = (Raise (TypeError "x is not a valid index identifier."), group_a).
Proof.
  exact (proj1 (@_execute_unknown_label small_host group_a (PyStr "x") PyNone
                  (PyStr "mod"))
           eq_refl eq_refl eq_refl).
Defined.

(** With [multiIndex=False] the labels are the ones the pipeline left. *)
Lemma concat_without_labels_witness :
  @concat small_host (mkSelf (DataFrameGroupBy two_groups) [renaming]) (PyBool false)
    (PyStr "|") [] O
  = (Ok (pd.mkDataFrame [PyInt 0; PyInt 1] [PyStr "renamed"; PyStr "renamed"]
           [pd.IntCol [5; 7]; pd.IntCol [10; 40]]),
     mkSelf (DataFrameGroupBy two_groups) [], 2%nat).
Proof.
  exact (@concat_without_labels small_host two_groups [renaming] (PyBool false)
           (PyStr "|") [] O (or_introl (conj eq_refl eq_refl))).
Defined.

Lemma concat_join_length_mismatch_witness :
  @concat small_host (mkSelf (DataFrameGroupBy two_groups) [dropping]) (PyStr "join")
    (PyStr "|") [] O
  = (Raise (ValueError "Length mismatch"),
     mkSelf (DataFrameGroupBy two_groups) [dropping], O).
Proof.
  refine (proj1 (@concat_join_length_mismatch small_host two_groups [dropping]
                   (PyStr "|") [] O O (pd.mkDataFrame [PyInt 0; PyInt 1] [] [])
                   eq_refl)
            eq_refl _).
  cbn. discriminate.
Defined.

Lemma add_row_labels_one_per_row_witness :
  @add_row_labels small_host small_exporter
    [[(PyStr "Value", PyStr "u")]; [(PyStr "Value", PyStr "v")]] 0
    [Timestamp 5; Timestamp 8] true (PyStr "idx_")
  = Ok [[(PyStr "Value", PyStr "u"); (PyStr "idx_", PyStr "T+5")];
        [(PyStr "Value", PyStr "v"); (PyStr "idx_", PyStr "T+8")]].
Proof.
  exact (proj1 (@add_row_labels_one_per_row small_host small_exporter
                  [[(PyStr "Value", PyStr "u")]; [(PyStr "Value", PyStr "v")]]
                  [Timestamp 5; Timestamp 8] (PyStr "idx_"))
           eq_refl).
Defined.

(** Integer cells, which the serializer refuses: [toJSON] raises after the
    two runs of the pipeline and the opening of the destination, and the
    pipeline is cleared. *)
Lemma toJSON_clears_pipeline_before_export_witness :
  @toJSON small_host small_exporter (mkSelf (DataFrameGroupBy two_groups) [renaming])
    (PyStr "out.json") (PyStr "idx_") (PyStr "|") [] O
  = (Raise (TypeError "Object of type int64 is not JSON serializable"),
     mkSelf (DataFrameGroupBy two_groups) [], 3%nat)
  /\ @_pipedFunctions small_host (mkSelf (DataFrameGroupBy two_groups) []) = [].
Proof.
  split; [reflexivity |].
  exact (proj2 (@toJSON_clears_pipeline_before_export small_host small_exporter
                  (mkSelf (DataFrameGroupBy two_groups) [renaming])
                  (mkSelf (DataFrameGroupBy two_groups) [])
                  (PyStr "out.json") (PyStr "idx_") (PyStr "|") [] O 3%nat
                  (Raise (TypeError "Object of type int64 is not JSON serializable"))
                  eq_refl)).
Defined.

(** Text cells: the destination is opened, then written once. *)
Lemma toJSON_opens_before_serializing_witness :
  @toJSON small_host small_exporter
    (mkSelf (DataFrameGroupBy [(PyStr "a", group_t)]) [])
    (PyStr "out.json") (PyStr "idx_") (PyStr "|") [] O
  = (Ok tt, mkSelf (DataFrameGroupBy [(PyStr "a", group_t)]) [], 2%nat).
Proof.
  exact (@toJSON_opens_before_serializing small_host small_exporter
           (mkSelf (DataFrameGroupBy [(PyStr "a", group_t)]) [])
           (mkSelf (DataFrameGroupBy [(PyStr "a", group_t)]) [])
           (PyStr "out.json") (PyStr "idx_") (PyStr "|") [] O O 1%nat
           (pd.mkDataFrame [PyInt 0; PyInt 1] [PyStr "Value|a"]
              [pd.ObjCol [PyStr "u"; PyStr "v"]])
           [[(PyStr "Value|a", PyStr "u"); (PyStr "idx_", PyStr "0")];
            [(PyStr "Value|a", PyStr "v"); (PyStr "idx_", PyStr "1")]]
           eq_refl eq_refl eq_refl).
Defined.

Lemma _execute_subtract_twice_witness :
  let once := snd (@_execute small_host mixed_table (PyInt 0) PyNone (PyStr "subtract")) in
  @_execute small_host once (PyInt 0) PyNone (PyStr "subtract") = (Ok tt, once).
Proof.
  refine (proj2 (@_execute_subtract_twice small_host mixed_table (PyInt 0) 0 0%nat
                   _ eq_refl eq_refl eq_refl)).
  split; [reflexivity |]. repeat constructor.
Defined.

